(** * algob transaction helpers (packages/algob/src/lib/tx.ts)

    A shallow embedding of [tx.ts] and the properties of its parameter
    resolution, signing dispatch and group submission.

    Conventions of the embedding.
    - A JavaScript [number] holding a fee or a round is a [Z]; the arithmetic
      of [tx.ts] on them ([Math.max], one addition, [=== 0]) is exact on
      integers below 2^53 in magnitude, the range of rounds and microAlgos.
    - An optional field ([x?: T]) is an [option]; [??] is [nullish].
    - A [SuggestedParams] object lives in a heap and is handled by reference,
      because [mkTxParams] assigns to the fields of the object it is given.
    - [async] functions run sequentially ([await] at every call), so they are
      computations of one state-and-exception monad [M] over a [World]: the
      heap of params objects and the trace of calls to the collaborators
      (algod node, algosdk, the runtime's builder, the loggers).
    - [throw new Error(msg)] is [throw (Error msg)]. *)

From Stdlib Require Import ZArith String List Bool Lia.
From stdpp Require Import base option list gmap strings pretty.

Local Open Scope Z_scope.

(** ** JavaScript values *)

Inductive JsError : Type := Error (message : string).

Inductive Result (A : Type) : Type :=
| Ok (a : A)
| Throw (e : JsError).
Arguments Ok {A} a.
Arguments Throw {A} e.

(** [a ?? b] with [b] always defined. *)
Definition nullish {A : Type} (a : option A) (b : A) : A :=
  match a with Some x => x | None => b end.

(** [a ?? b] with [b] itself optional. *)
Definition nullish_opt {A : Type} (a b : option A) : option A :=
  match a with Some x => Some x | None => b end.

(** [x !== undefined]. *)
Definition defined {A : Type} (a : option A) : bool :=
  match a with Some _ => true | None => false end.

(** The truth value of an optional string in an [if]: [undefined] and the
    empty string are falsy. *)
Definition truthy (o : option string) : bool :=
  match o with
  | Some s => negb (String.eqb s EmptyString)
  | None => false
  end.

(** The truth value of an optional boolean in an [if]. *)
Definition truthy_bool (o : option bool) : bool :=
  match o with Some b => b | None => false end.

Definition Blob : Type := list Byte.byte.      (* Uint8Array *)
Definition SecretKey : Type := list Byte.byte.
Definition loc : Type := positive.             (* identity of a params object *)

(** ** algosdk data *)

Record SuggestedParams : Type := mkSuggestedParams {
  flatFee : option bool;
  fee : Z;
  firstRound : Z;
  lastRound : Z;
  genesisID : string;
  genesisHash : string
}.

Definition set_flatFee (v : option bool) (s : SuggestedParams) : SuggestedParams :=
  mkSuggestedParams v (fee s) (firstRound s) (lastRound s) (genesisID s) (genesisHash s).
Definition set_fee (v : Z) (s : SuggestedParams) : SuggestedParams :=
  mkSuggestedParams (flatFee s) v (firstRound s) (lastRound s) (genesisID s) (genesisHash s).
Definition set_firstRound (v : Z) (s : SuggestedParams) : SuggestedParams :=
  mkSuggestedParams (flatFee s) (fee s) v (lastRound s) (genesisID s) (genesisHash s).
Definition set_lastRound (v : Z) (s : SuggestedParams) : SuggestedParams :=
  mkSuggestedParams (flatFee s) (fee s) (firstRound s) v (genesisID s) (genesisHash s).

Record Account : Type := mkAccount { addr : string; sk : SecretKey }.

Record ConfirmedTxInfo : Type := mkConfirmedTxInfo { confirmed_round : Z }.

(** [Uint8Array | Uint8Array[]], the argument of [sendRawTransaction]. *)
Inductive RawTxns : Type :=
| RawOne (signed : Blob)
| RawMany (signed : list Blob).

(** ** Types of [@algorand-builder/runtime/build/types] and [../types] *)

(** Modelled from the spec: the declaration of [TxParams], in the runtime
    package's [types], is not embedded; the fields are the ones [tx.ts]
    reads (UserTxParams {totalFee?, feePerByte?, firstValid?, validRounds?}
    and the two optional note fields, raw or base64). *)
Record TxParams : Type := mkTxParamsRecord {
  feePerByte : option Z;
  totalFee : option Z;
  firstValid : option Z;
  validRounds : option Z;
  note : option string;
  noteb64 : option string
}.

(** Modelled from the spec: the declaration of the enum [SignType], in the
    runtime package's [types], is not embedded; [tx.ts] names two members and
    has a [default] branch for every other value, kept here as
    [SignType.Other]. *)
Module SignType.
Inductive t : Type :=
| SecretKey
| LogicSignature
| Other (tag : nat).
End SignType.

(** Modelled from the spec: the declaration of [ASADeploymentFlags], in
    [../types], is not embedded; it is a [TxParams] with the creator's
    account. *)
Record ASADeploymentFlags : Type := mkASADeploymentFlags {
  creator : Account;
  flagsTxParams :> TxParams
}.

Module ASADef.
(** Modelled from the spec: the declaration of [ASADef], in [../types], is
    not embedded; the fields are the ones [makeAssetCreateTxn] reads (the
    full ASA parameter set and the asset-definition-level note fields). *)
Record t : Type := mk {
  total : Z;
  decimals : Z;
  defaultFrozen : bool;
  manager : option string;
  reserve : option string;
  freeze : option string;
  clawback : option string;
  unitName : option string;
  url : option string;
  metadataHash : option string;
  note : option string;
  noteb64 : option string
}.
End ASADef.

(** The fourteen positional arguments of
    [algosdk.makeAssetCreateTxnWithSuggestedParams]. *)
Record AssetCreateArgs : Type := mkAssetCreateArgs {
  ac_from : string;
  ac_note : option Blob;
  ac_total : Z;
  ac_decimals : Z;
  ac_defaultFrozen : bool;
  ac_manager : option string;
  ac_reserve : option string;
  ac_freeze : option string;
  ac_clawback : option string;
  ac_unitName : option string;
  ac_assetName : string;
  ac_assetURL : option string;
  ac_assetMetadataHash : option string;
  ac_suggestedParams : SuggestedParams
}.

(** ** The imported modules *)

(** [algosdk]: the transaction and logic-signature objects are the SDK's; its
    functions may throw. *)
Class AlgoSdk : Type := {
  Transaction : Type;
  LogicSig : Type;
  (* txn.signTxn(sk) *)
  signTxn : Transaction -> SecretKey -> Result Blob;
  (* algosdk.signLogicSigTransactionObject(txn, lsig).blob *)
  signLogicSigTransactionObject : Transaction -> LogicSig -> Result Blob;
  assignGroupID : list Transaction -> Result (list Transaction);
  makeAssetCreateTxnWithSuggestedParams : AssetCreateArgs -> Result Transaction
}.

(** Modelled from the spec: the declaration of [ExecParams], in the runtime
    package's [types], is not embedded. [tx.ts] reads [sign],
    [fromAccount.sk], [lsig] and [payFlags]; the operation kind, receiver and
    amount fields follow the spec's data model and are read by the runtime's
    builder only. *)
Record ExecParams `{AlgoSdk} : Type := mkExecParams {
  opType : string;
  sign : SignType.t;
  fromAccount : Account;
  lsig : option LogicSig;
  toAccountAddr : option string;
  amount : option Z;
  payFlags : TxParams
}.
Arguments mkExecParams {_} _ _ _ _ _ _ _.

(** [./algo-operator]. *)
Class AlgoOperator : Type := {
  ALGORAND_MIN_TX_FEE : Z
}.

(** [@algorand-builder/runtime]. The builder is handed a params object and
    may assign to it: it returns the object's new content with its result. *)
Class Runtime `{AlgoSdk} : Type := {
  encodeNote : option string -> option string -> option Blob;
  mkTransaction : ExecParams -> SuggestedParams -> SuggestedParams * Result Transaction
}.

(** [ExecParams | ExecParams[]], told apart by [Array.isArray]. *)
Inductive ExecParamsArg `{AlgoSdk} : Type :=
| Single (p : ExecParams)
| Array (ps : list ExecParams).
Arguments Single {_} p.
Arguments Array {_} ps.

(** ** The world: params objects and calls to the collaborators *)

Inductive Event `{AlgoSdk} : Type :=
| EvGetTransactionParams
| EvMkTransaction (p : ExecParams) (s : loc) (params : SuggestedParams)
| EvAssignGroupID (txns : list Transaction)
| EvSignTxn (txn : Transaction) (key : SecretKey)
| EvSignLogicSig (txn : Transaction) (logicsig : LogicSig)
| EvLog (msg : string) (signed : Blob)
| EvSendRawTransaction (rawTxns : RawTxns)
| EvWaitForConfirmation (txId : string)
| EvConsoleLog (info : ConfirmedTxInfo).
Arguments EvGetTransactionParams {_}.
Arguments EvMkTransaction {_} p s params.
Arguments EvAssignGroupID {_} txns.
Arguments EvSignTxn {_} txn key.
Arguments EvSignLogicSig {_} txn logicsig.
Arguments EvLog {_} msg signed.
Arguments EvSendRawTransaction {_} rawTxns.
Arguments EvWaitForConfirmation {_} txId.
Arguments EvConsoleLog {_} info.

Record World `{AlgoSdk} : Type := mkWorld {
  heap : gmap loc SuggestedParams;
  trace : list Event
}.
Arguments mkWorld {_} heap trace.

(** The algod client: what the node answers depends on what has happened so
    far. *)
Record Algodv2 `{AlgoSdk} : Type := mkAlgodv2 {
  getTransactionParams : list Event -> Result SuggestedParams;
  sendRawTransaction : list Event -> RawTxns -> Result string
}.
Arguments mkAlgodv2 {_} _ _.

Record AlgobDeployer `{AlgoSdk} : Type := mkAlgobDeployer {
  algodClient : Algodv2;
  waitForConfirmation : list Event -> string -> Result ConfirmedTxInfo
}.
Arguments mkAlgobDeployer {_} _ _.

(** ** The monad of [async] code *)

Section Monad.
Context `{AlgoSdk}.

Definition M (A : Type) : Type := World -> World * Result A.

Definition ret {A : Type} (a : A) : M A := fun w => (w, Ok a).

Definition throw {A : Type} (e : JsError) : M A := fun w => (w, Throw e).

Definition bind {A B : Type} (m : M A) (f : A -> M B) : M B :=
  fun w =>
    match m w with
    | (w', Ok a) => f a w'
    | (w', Throw e) => (w', Throw e)
    end.

Definition liftR {A : Type} (r : Result A) : M A := fun w => (w, r).

Definition emit (e : Event) : M unit :=
  fun w => (mkWorld (heap w) (trace w ++ [e]), Ok tt).

(** A reference always denotes an object in JavaScript; the model stops
    with this error at a location that holds none. *)
Definition DanglingReference : JsError := Error "dangling reference".

Definition alloc (s : SuggestedParams) : M loc :=
  fun w =>
    let l := fresh (dom (heap w)) in
    (mkWorld (<[l := s]> (heap w)) (trace w), Ok l).

Definition load (l : loc) : M SuggestedParams :=
  fun w =>
    match heap w !! l with
    | Some s => (w, Ok s)
    | None => (w, Throw DanglingReference)
    end.

Definition store (l : loc) (s : SuggestedParams) : M unit :=
  fun w => (mkWorld (<[l := s]> (heap w)) (trace w), Ok tt).
End Monad.

Declare Scope js_scope.
Delimit Scope js_scope with js.
Notation "x <- m ;; k" := (bind m (fun x => k))
  (at level 100, m at next level, right associativity) : js_scope.
Notation "m ;; k" := (bind m (fun _ => k))
  (at level 100, right associativity) : js_scope.

(** ** The errors [tx.ts] throws, under the names the specification gives
    them *)

Definition StaleNetworkError : JsError :=
  Error "Suggested params returned 0 as firstRound. Ensure that your node progresses.".
Definition MissingLogicSigError : JsError :=
  Error "logic signature for this transaction was not passed or - is not defined".
Definition UnknownSignTypeError : JsError :=
  Error "Unknown type of signature".
Definition GroupSizeExceededError : JsError :=
  Error "Maximum size of an atomic transfer group is 16".
(** Reading a property of [undefined]. *)
Definition TypeError : JsError :=
  Error "TypeError: Cannot read property 'sign' of undefined".

(** ** tx.ts *)

Section Tx.
Context `{sdk : AlgoSdk} {rt : Runtime} {op : AlgoOperator}.
Local Open Scope js_scope.

(** [await algocl.getTransactionParams().do()]: one request to the node,
    whose answer is parsed into a new object. *)
Definition callGetTransactionParams (algocl : Algodv2) : M loc :=
  fun w =>
    let w1 := mkWorld (heap w) (trace w ++ [EvGetTransactionParams]) in
    match getTransactionParams algocl (trace w) with
    | Ok raw => alloc raw w1
    | Throw e => (w1, Throw e)
    end.

Definition getSuggestedParams (algocl : Algodv2) : M loc :=
  params <- callGetTransactionParams algocl ;;
  p <- load params ;;
  if firstRound p =? 0 then throw StaleNetworkError
  else ret params.

(** [s.field = e]: an assignment to a field of the object at [s], where the
    right-hand side may read the object. *)
Definition assign (s : loc) (f : SuggestedParams -> SuggestedParams) : M unit :=
  o <- load s ;; store s (f o).

Definition mkTxParams (algocl : Algodv2) (userParams : TxParams) (s : option loc)
  : M loc :=
  s <- match s with
       | None => getSuggestedParams algocl
       | Some s => ret s
       end ;;
  assign s (set_flatFee (Some (defined (totalFee userParams)))) ;;
  assign s (set_fee (nullish (totalFee userParams)
                       (nullish (feePerByte userParams) ALGORAND_MIN_TX_FEE))) ;;
  o <- load s ;;
  (if truthy_bool (flatFee o)
   then assign s (fun o => set_fee (Z.max (fee o) ALGORAND_MIN_TX_FEE) o)
   else ret tt) ;;
  assign s (fun o => set_firstRound (nullish (firstValid userParams) (firstRound o)) o) ;;
  assign s (fun o =>
    set_lastRound
      (match firstValid userParams, validRounds userParams with
       | Some fv, Some vr => fv + vr
       | _, _ => lastRound o
       end) o) ;;
  ret s.

(** The [note] variable of [makeAssetCreateTxn]. *)
Definition assetCreateNote (asaDef : ASADef.t) (flags : ASADeploymentFlags)
  : option Blob :=
  if truthy (nullish_opt (noteb64 flags) (note flags))
  then encodeNote (note flags) (noteb64 flags)
  else if truthy (nullish_opt (ASADef.noteb64 asaDef) (ASADef.note asaDef))
  then encodeNote (ASADef.note asaDef) (ASADef.noteb64 asaDef)
  else None.

Definition makeAssetCreateTxn (name : string) (asaDef : ASADef.t)
    (flags : ASADeploymentFlags) (txSuggestedParams : SuggestedParams)
  : Result Transaction :=
  let note := assetCreateNote asaDef flags in
  makeAssetCreateTxnWithSuggestedParams
    (mkAssetCreateArgs
       (addr (creator flags))
       note
       (ASADef.total asaDef)
       (ASADef.decimals asaDef)
       (ASADef.defaultFrozen asaDef)
       (ASADef.manager asaDef)
       (ASADef.reserve asaDef)
       (ASADef.freeze asaDef)
       (ASADef.clawback asaDef)
       (ASADef.unitName asaDef)
       name
       (ASADef.url asaDef)
       (ASADef.metadataHash asaDef)
       txSuggestedParams).

Definition signTransaction (txn : Transaction) (execParams : ExecParams) : M Blob :=
  match sign execParams with
  | SignType.SecretKey =>
      emit (EvSignTxn txn (sk (fromAccount execParams))) ;;
      liftR (signTxn txn (sk (fromAccount execParams)))
  | SignType.LogicSignature =>
      let logicsig := lsig execParams in
      match logicsig with
      | None => throw MissingLogicSigError
      | Some logicsig =>
          emit (EvSignLogicSig txn logicsig) ;;
          liftR (signLogicSigTransactionObject txn logicsig)
      end
  | SignType.Other _ => throw UnknownSignTypeError
  end.

Definition callSendRawTransaction (algocl : Algodv2) (rawTxns : RawTxns) : M string :=
  fun w =>
    (mkWorld (heap w) (trace w ++ [EvSendRawTransaction rawTxns]),
     sendRawTransaction algocl (trace w) rawTxns).

Definition callWaitForConfirmation (deployer : AlgobDeployer) (txId : string)
  : M ConfirmedTxInfo :=
  fun w =>
    (mkWorld (heap w) (trace w ++ [EvWaitForConfirmation txId]),
     waitForConfirmation deployer (trace w) txId).

Definition sendAndWait (deployer : AlgobDeployer) (rawTxns : RawTxns)
  : M ConfirmedTxInfo :=
  txId <- callSendRawTransaction (algodClient deployer) rawTxns ;;
  callWaitForConfirmation deployer txId.

(** [Object.assign({}, src)]: a new object with the fields of [src]. *)
Definition objectAssignEmpty (src : loc) : M loc :=
  o <- load src ;; alloc o.

(** [mkTransaction(p, s)] of the runtime, on the object at [s]. *)
Definition callMkTransaction (p : ExecParams) (s : loc) : M Transaction :=
  fun w =>
    match heap w !! s with
    | None => (w, Throw DanglingReference)
    | Some o =>
        let (o', r) := mkTransaction p o in
        (mkWorld (<[s := o']> (heap w)) (trace w ++ [EvMkTransaction p s o]), r)
    end.

(** The closure [mkTx] of [executeTransaction]. *)
Definition mkTx (deployer : AlgobDeployer) (suggestedParams : loc) (p : ExecParams)
  : M Transaction :=
  c <- objectAssignEmpty suggestedParams ;;
  s <- mkTxParams (algodClient deployer) (payFlags p) (Some c) ;;
  callMkTransaction p s.

(** [for (const t of xs) { out.push(await f(t)); }]. *)
Fixpoint forOf {A B : Type} (f : A -> M B) (xs : list A) : M (list B) :=
  match xs with
  | [] => ret []
  | t :: rest =>
      b <- f t ;;
      bs <- forOf f rest ;;
      ret (b :: bs)
  end.

(** [xs.map((x, index) => f(x, index))], from position [index] on. *)
Fixpoint mapIndexed {A B : Type} (f : A -> nat -> M B) (index : nat) (xs : list A)
  : M (list B) :=
  match xs with
  | [] => ret []
  | x :: rest =>
      b <- f x index ;;
      bs <- mapIndexed f (S index) rest ;;
      ret (b :: bs)
  end.

Definition callAssignGroupID (txns : list Transaction) : M (list Transaction) :=
  emit (EvAssignGroupID txns) ;; liftR (assignGroupID txns).

Definition executeTransaction (deployer : AlgobDeployer) (execParams : ExecParamsArg)
  : M ConfirmedTxInfo :=
  suggestedParams <- getSuggestedParams (algodClient deployer) ;;
  signedTxn <-
    match execParams with
    | Array execParams =>
        if (16 <? length execParams)%nat then throw GroupSizeExceededError
        else
          txns <- forOf (mkTx deployer suggestedParams) execParams ;;
          txns <- callAssignGroupID txns ;;
          signed <- mapIndexed
            (fun txn index =>
               match execParams !! index with
               | None => throw TypeError
               | Some p =>
                   signed <- signTransaction txn p ;;
                   emit (EvLog ("Signed transaction " +:+ pretty index) signed) ;;
                   ret signed
               end) 0%nat txns ;;
          ret (RawMany signed)
    | Single execParams =>
        txn <- mkTx deployer suggestedParams execParams ;;
        signed <- signTransaction txn execParams ;;
        emit (EvLog "Signed transaction:" signed) ;;
        ret (RawOne signed)
    end ;;
  confirmedTx <- sendAndWait deployer signedTxn ;;
  emit (EvConsoleLog confirmedTx) ;;
  ret confirmedTx.
End Tx.

(** ** Vocabulary of the statements *)

Section Vocabulary.
Context `{sdk : AlgoSdk} {rt : Runtime} {op : AlgoOperator}.

(** The merge of 4.1 (ParamsResolver) as the specification words it: a
    function from the user's overrides and the raw params to the resolved
    params. [mkTxParams] is compared with it below. *)
Definition resolve_spec (userParams : TxParams) (raw : SuggestedParams)
  : SuggestedParams :=
  let flat := defined (totalFee userParams) in
  let fee0 := nullish (totalFee userParams)
                (nullish (feePerByte userParams) ALGORAND_MIN_TX_FEE) in
  {| flatFee := Some flat;
     fee := if flat then Z.max fee0 ALGORAND_MIN_TX_FEE else fee0;
     firstRound := nullish (firstValid userParams) (firstRound raw);
     lastRound := match firstValid userParams, validRounds userParams with
                  | Some fv, Some vr => fv + vr
                  | _, _ => lastRound raw
                  end;
     genesisID := genesisID raw;
     genesisHash := genesisHash raw |}.

(** The raw params [mkTxParams] works on, and when it accepts them: the
    content of the object the caller supplies, or else the node's answer,
    which must not have first round 0. *)
Inductive accepts (algocl : Algodv2) (w : World)
  : option loc -> SuggestedParams -> Prop :=
| accepts_supplied (s : loc) (raw : SuggestedParams) :
    heap w !! s = Some raw ->
    accepts algocl w (Some s) raw
| accepts_fetched (raw : SuggestedParams) :
    getTransactionParams algocl (trace w) = Ok raw ->
    firstRound raw <> 0 ->
    accepts algocl w None raw.

(** Requests for the node's params in a trace. *)
Definition isFetch (e : Event) : bool :=
  match e with EvGetTransactionParams => true | _ => false end.

Definition fetches (tr : list Event) : nat := length (List.filter isFetch tr).

(** Calls of the runtime's builder in a trace: the [ExecParams], the params
    object handed over and its content at the call. *)
Definition build_of (e : Event) : option (ExecParams * loc * SuggestedParams) :=
  match e with
  | EvMkTransaction p s params => Some (p, s, params)
  | _ => None
  end.

Definition builds (tr : list Event) : list (ExecParams * loc * SuggestedParams) :=
  omap build_of tr.

(** Events of a submission that handles its transaction individually: no
    group identifier is assigned and nothing is sent as an array. *)
Definition individual (e : Event) : bool :=
  match e with
  | EvAssignGroupID _ => false
  | EvSendRawTransaction (RawMany _) => false
  | _ => true
  end.

(** A computation all of whose runs are related by [R]. *)
Definition steps (R : World -> World -> Prop) {A : Type} (m : M A) : Prop :=
  forall w, R w (m w).1.
(** Two worlds with the same heap, the second with a longer trace whose new
    events neither fetch params nor build a transaction. *)
Definition quiet (w w' : World) : Prop :=
  heap w' = heap w
  /\ exists tr : list Event,
       trace w' = trace w ++ tr /\ fetches tr = 0%nat /\ builds tr = [].

(** A build of a submission started in world [w0], where the node answered
    [raw]: the builder was handed the merge of [raw] with the transaction's
    own [payFlags], in an object that is neither the snapshot (the object
    the fetch made) nor an object that existed before the call. *)
Definition own_copy (w0 : World) (raw : SuggestedParams)
    (b : ExecParams * loc * SuggestedParams) : Prop :=
  b.2 = resolve_spec (payFlags b.1.1) raw
  /\ b.1.2 <> fresh (dom (heap w0))
  /\ heap w0 !! b.1.2 = None.

(** What holds throughout a submission started in [w0] once the node has
    answered [raw]: the snapshot still holds [raw], that fetch is the only
    one, and every build so far had a copy of its own. *)
Definition one_snapshot (w0 : World) (raw : SuggestedParams) (w : World) : Prop :=
  heap w !! fresh (dom (heap w0)) = Some raw
  /\ dom (heap w0) ⊆ dom (heap w)
  /\ exists tr : list Event,
       trace w = trace w0 ++ EvGetTransactionParams :: tr
       /\ fetches tr = 0%nat
       /\ Forall (fun b => own_copy w0 raw b /\ b.1.2 ∈ dom (heap w)) (builds tr)
       /\ NoDup (map (fun b => b.1.2) (builds tr)).
End Vocabulary.

(** ** Concrete collaborators, for the examples *)

Module Fixtures.
Local Open Scope string_scope.

Record ToyTxn : Type := mkToyTxn {
  body : string;
  first : Z;
  last : Z;
  group : option nat
}.

(** A stand-in SDK: a signature is a tag byte before the key or program,
    and the group identifier is the size of the group. *)
Definition toySdk : AlgoSdk := {|
  Transaction := ToyTxn;
  LogicSig := Blob;
  signTxn := fun _ key => Ok (Byte.x01 :: key);
  signLogicSigTransactionObject := fun _ program => Ok (Byte.x02 :: program);
  assignGroupID := fun txns =>
    Ok (map (fun t => mkToyTxn (body t) (first t) (last t) (Some (length txns))) txns);
  makeAssetCreateTxnWithSuggestedParams := fun args =>
    Ok (mkToyTxn (ac_assetName args)
          (firstRound (ac_suggestedParams args))
          (lastRound (ac_suggestedParams args)) None)
|}.

Definition toyOperator : AlgoOperator := {| ALGORAND_MIN_TX_FEE := 1000 |}.

(** A stand-in runtime: the note is the bytes of the base64 field when it
    is there, else of the raw field. *)
Definition toyRuntime : @Runtime toySdk := {|
  encodeNote := fun note noteb64 =>
    match noteb64, note with
    | Some b, _ => Some (list_byte_of_string b)
    | None, Some n => Some (list_byte_of_string n)
    | None, None => None
    end;
  mkTransaction := fun p s =>
    (s, Ok (mkToyTxn (@opType toySdk p) (firstRound s) (lastRound s) None))
|}.

Definition noFlags : TxParams := mkTxParamsRecord None None None None None None.

Definition flatFee5000 : TxParams :=
  mkTxParamsRecord None (Some 5000) None None None None.

Definition window : TxParams :=
  mkTxParamsRecord None None (Some 100) (Some 50) None None.

Definition alice : Account := mkAccount "ALICE" [Byte.x07].

Definition payment : @ExecParams toySdk :=
  @mkExecParams toySdk "payment" SignType.SecretKey alice None (Some "BOB")
    (Some 1000000) noFlags.

Definition contractPayment : @ExecParams toySdk :=
  @mkExecParams toySdk "payment" SignType.LogicSignature alice (Some [Byte.x09])
    (Some "BOB") (Some 5) noFlags.

Definition liveParams : SuggestedParams :=
  mkSuggestedParams None 0 500 1500 "testnet-v1.0" "SGO1".

Definition staleParams : SuggestedParams :=
  mkSuggestedParams None 0 0 1000 "private-v1" "HASH".

(** A node that always answers [raw], accepts every submission and
    confirms it in round 501. *)
Definition node (raw : SuggestedParams) : @Algodv2 toySdk :=
  mkAlgodv2 (fun _ => Ok raw) (fun _ _ => Ok "TXID").

Definition deployerOn (raw : SuggestedParams) : @AlgobDeployer toySdk :=
  mkAlgobDeployer (node raw) (fun _ _ => Ok (mkConfirmedTxInfo 501)).

Definition emptyWorld : @World toySdk := mkWorld ∅ [].

Definition seventeen : list (@ExecParams toySdk) := replicate 17 payment.

Definition builtPayment : @Transaction toySdk := mkToyTxn "payment" 500 1500 None.


(** Deployment flags with a note and an empty base64 note, and an ASA
    definition with a note of its own. *)
Definition maskedFlags : ASADeploymentFlags :=
  mkASADeploymentFlags alice
    (mkTxParamsRecord None None None None (Some "hello") (Some "")).

Definition notedAsa : ASADef.t :=
  ASADef.mk 1000 0 false None None None None (Some "GLD") None None
    (Some "asa") None.

(** A world where the caller holds one params object, at location 1. *)
Definition worldWith (s : SuggestedParams) : @World toySdk :=
  mkWorld {[ 1%positive := s ]} [].
End Fixtures.

(** ** The rest of tx.ts: asset opt-in and the replay of a signed file *)

(** The eight positional arguments of
    [algosdk.makeAssetTransferTxnWithSuggestedParams]. *)
Record AssetTransferArgs : Type := mkAssetTransferArgs {
  at_from : string;
  at_to : string;
  at_closeRemainderTo : option string;
  at_revocationTarget : option string;
  at_amount : Z;
  at_note : option Blob;
  at_assetIndex : Z;
  at_suggestedParams : SuggestedParams
}.

(** The two further [algosdk] functions of tx.ts; both may throw. *)
Class AlgoSdkReplay `{AlgoSdk} : Type := {
  SignedTransaction : Type;
  makeAssetTransferTxnWithSuggestedParams : AssetTransferArgs -> Result Transaction;
  decodeSignedTransaction : Blob -> Result SignedTransaction
}.

(** [./files]. Modelled from the spec: the loader is not embedded; it
    "exposes loadSignedBlob(path) -> bytes | undefined", the content of the
    file or [undefined] when there is none. *)
Class Files : Type := {
  loadSignedTxnFromFile : string -> option Blob
}.

Section TxRest.
Context `{sdk : AlgoSdk} {replay : AlgoSdkReplay} {rt : Runtime} {op : AlgoOperator}
  {fs : Files}.
Local Open Scope js_scope.

Definition makeASAOptInTx (addr : string) (assetID : Z) (params : SuggestedParams)
  : Result Transaction :=
  let closeRemainderTo := None in
  let revocationTarget := None in
  let amount := 0 in
  let note := None in
  makeAssetTransferTxnWithSuggestedParams
    (mkAssetTransferArgs addr addr closeRemainderTo revocationTarget amount note
       assetID params).

(** [new Error(`File ${fileName} does not exist`)]. *)
Definition FileNotFoundError (fileName : string) : JsError :=
  Error ("File " +:+ fileName +:+ " does not exist").

(** [console.debug] prints to the console of the process and is not a call
    to a collaborator: it leaves no event. Its argument is evaluated before
    it, and [algosdk.decodeSignedTransaction] may throw there. *)
Definition executeSignedTxnFromFile (deployer : AlgobDeployer) (fileName : string)
  : M ConfirmedTxInfo :=
  let signedTxn := loadSignedTxnFromFile fileName in
  match signedTxn with
  | None => throw (FileNotFoundError fileName)
  | Some signedTxn =>
      liftR (decodeSignedTransaction signedTxn) ;;
      confirmedTx <- sendAndWait deployer (RawOne signedTxn) ;;
      emit (EvConsoleLog confirmedTx) ;;
      ret confirmedTx
  end.

(** The callback of [txns.map] in [executeTransaction] (lines 148-152), by
    itself. *)
Definition signAt (execParams : list ExecParams) (txn : Transaction) (index : nat)
  : M Blob :=
  match execParams !! index with
  | None => throw TypeError
  | Some p =>
      signed <- signTransaction txn p ;;
      emit (EvLog ("Signed transaction " +:+ pretty index) signed) ;;
      ret signed
  end.

(** The part of [executeTransaction] that computes [signedTxn] (lines
    141-157), by itself. *)
Definition prepare (deployer : AlgobDeployer) (suggestedParams : loc)
    (execParams : ExecParamsArg) : M RawTxns :=
  match execParams with
  | Array execParams =>
      if (16 <? length execParams)%nat then throw GroupSizeExceededError
      else
        txns <- forOf (mkTx deployer suggestedParams) execParams ;;
        txns <- callAssignGroupID txns ;;
        signed <- mapIndexed (signAt execParams) 0%nat txns ;;
        ret (RawMany signed)
  | Single execParams =>
      txn <- mkTx deployer suggestedParams execParams ;;
      signed <- signTransaction txn execParams ;;
      emit (EvLog "Signed transaction:" signed) ;;
      ret (RawOne signed)
  end.

(** *** Vocabulary of the statements about a whole submission *)

(** The ExecParams of a call, in order. *)
Definition params_of (execParams : ExecParamsArg) : list ExecParams :=
  match execParams with
  | Single p => [p]
  | Array ps => ps
  end.

(** The size check of line 143: only an array can fail it. *)
Definition tooLarge (execParams : ExecParamsArg) : bool :=
  match execParams with
  | Single _ => false
  | Array ps => (16 <? length ps)%nat
  end.

(** The blobs of an argument of [sendRawTransaction], in order. *)
Definition blobs (rawTxns : RawTxns) : list Blob :=
  match rawTxns with
  | RawOne signed => [signed]
  | RawMany signed => signed
  end.

(** Events of the phase before submission: building, grouping, signing and
    logging the signed blob. *)
Definition preparing (e : Event) : bool :=
  match e with
  | EvMkTransaction _ _ _ | EvAssignGroupID _ | EvSignTxn _ _
  | EvSignLogicSig _ _ | EvLog _ _ => true
  | _ => false
  end.

Definition log_of (e : Event) : option Blob :=
  match e with EvLog _ signed => Some signed | _ => None end.

(** The blobs passed to [deployer.log], in order. *)
Definition logged (tr : list Event) : list Blob := omap log_of tr.

Definition group_of (e : Event) : option (list Transaction) :=
  match e with EvAssignGroupID txns => Some txns | _ => None end.

(** The arguments of the calls of [algosdk.assignGroupID], in order. *)
Definition groupings (tr : list Event) : list (list Transaction) := omap group_of tr.

Definition send_of (e : Event) : option RawTxns :=
  match e with EvSendRawTransaction rawTxns => Some rawTxns | _ => None end.

(** The arguments of the calls of [sendRawTransaction], in order. *)
Definition sends (tr : list Event) : list RawTxns := omap send_of tr.

(** Events of the building of transactions. *)
Definition building (e : Event) : bool :=
  match e with EvMkTransaction _ _ _ => true | _ => false end.

(** Events of the signing of transactions and of the logging of the signed
    blobs. *)
Definition signing (e : Event) : bool :=
  match e with
  | EvSignTxn _ _ | EvSignLogicSig _ _ | EvLog _ _ => true
  | _ => false
  end.

(** What [signTransaction] returns or throws; it does not depend on the
    world. *)
Definition signResult (txn : Transaction) (p : ExecParams) : Result Blob :=
  (signTransaction txn p (mkWorld ∅ [])).2.
End TxRest.

Module ReplayFixtures.
Import Fixtures.
Local Open Scope string_scope.

(** A stand-in decoder that rejects the empty blob. *)
Definition toyReplay : @AlgoSdkReplay toySdk := {|
  SignedTransaction := Blob;
  makeAssetTransferTxnWithSuggestedParams := fun args =>
    Ok (mkToyTxn (at_from args)
          (firstRound (at_suggestedParams args))
          (lastRound (at_suggestedParams args)) None : @Transaction toySdk);
  decodeSignedTransaction := fun blob =>
    match blob with
    | [] => Throw (Error "cannot decode")
    | _ => Ok blob
    end
|}.

(** A file system with one file. *)
Definition toyFiles : Files := {|
  loadSignedTxnFromFile := fun fileName =>
    if String.eqb fileName "payment.tx" then Some [Byte.x01; Byte.x07] else None
|}.

(** A stand-in SDK that refuses to group an empty list, and a node for it. *)
Definition strictSdk : AlgoSdk := {|
  Transaction := ToyTxn;
  LogicSig := Blob;
  signTxn := fun _ key => Ok (Byte.x01 :: key);
  signLogicSigTransactionObject := fun _ program => Ok (Byte.x02 :: program);
  assignGroupID := fun txns =>
    match txns with
    | [] => Throw (Error "empty transaction list")
    | _ => Ok (map (fun t => mkToyTxn (body t) (first t) (last t) (Some (length txns)))
                 txns)
    end;
  makeAssetCreateTxnWithSuggestedParams := fun args =>
    Ok (mkToyTxn (ac_assetName args)
          (firstRound (ac_suggestedParams args))
          (lastRound (ac_suggestedParams args)) None)
|}.

Definition strictRuntime : @Runtime strictSdk := {|
  encodeNote := fun _ _ => None;
  mkTransaction := fun p s =>
    (s, Ok (mkToyTxn (@opType strictSdk p) (firstRound s) (lastRound s) None))
|}.

Definition strictDeployer : @AlgobDeployer strictSdk :=
  mkAlgobDeployer (mkAlgodv2 (fun _ => Ok liveParams) (fun _ _ => Ok "TXID"))
    (fun _ _ => Ok (mkConfirmedTxInfo 501)).

Definition strictWorld : @World strictSdk := mkWorld ∅ [].

Definition firstValid7 : TxParams :=
  mkTxParamsRecord None None (Some 7) None None None.

Definition perByte3 : TxParams :=
  mkTxParamsRecord (Some 3) None None None None None.
End ReplayFixtures.

(** ** Running the monad *)

Section Running.
Context `{sdk : AlgoSdk}.

Lemma bind_ok {A B : Type} (m : M A) (f : A -> M B) (w w' : World) (a : A) :
  m w = (w', Ok a) -> bind m f w = f a w'.
Proof. intros Hm. unfold bind. by rewrite Hm. Qed.

Lemma bind_throw {A B : Type} (m : M A) (f : A -> M B) (w w' : World) (e : JsError) :
  m w = (w', Throw e) -> bind m f w = (w', Throw e).
Proof. intros Hm. unfold bind. by rewrite Hm. Qed.

Lemma load_ok (l : loc) (o : SuggestedParams) (w : World) :
  heap w !! l = Some o -> load l w = (w, Ok o).
Proof. intros Hl. unfold load. by rewrite Hl. Qed.

Lemma assign_ok (s : loc) (f : SuggestedParams -> SuggestedParams)
    (o : SuggestedParams) (w : World) :
  heap w !! s = Some o ->
  assign s f w = (mkWorld (<[s := f o]> (heap w)) (trace w), Ok tt).
Proof.
  intros Hs. unfold assign.
  by rewrite (bind_ok _ _ _ _ _ (load_ok _ _ _ Hs)).
Qed.
End Running.

(** ** Parameter resolution *)

Section Resolution.
Context `{sdk : AlgoSdk} {rt : Runtime} {op : AlgoOperator}.

Lemma getSuggestedParams_run (algocl : Algodv2) (w : World) :
  getSuggestedParams algocl w =
    match getTransactionParams algocl (trace w) with
    | Throw e =>
        (mkWorld (heap w) (trace w ++ [EvGetTransactionParams]), Throw e)
    | Ok raw =>
        (mkWorld (<[fresh (dom (heap w)) := raw]> (heap w))
           (trace w ++ [EvGetTransactionParams]),
         if firstRound raw =? 0 then Throw StaleNetworkError
         else Ok (fresh (dom (heap w))))
    end.
Proof.
  unfold getSuggestedParams, bind, callGetTransactionParams, alloc, load.
  destruct (getTransactionParams algocl (trace w)) as [raw|e]; simpl; [|done].
  rewrite lookup_insert_eq. by destruct (firstRound raw =? 0).
Qed.

(** On an object of the heap [mkTxParams] is the specification's merge,
    written into that object; the same reference comes back. *)
Lemma mkTxParams_supplied (algocl : Algodv2) (userParams : TxParams) (s : loc)
    (raw : SuggestedParams) (w : World) :
  heap w !! s = Some raw ->
  mkTxParams algocl userParams (Some s) w =
    (mkWorld (<[s := resolve_spec userParams raw]> (heap w)) (trace w), Ok s).
Proof.
  intros Hs. unfold mkTxParams.
  rewrite (bind_ok _ _ w w s) by done.
  erewrite bind_ok by (by apply assign_ok).
  erewrite bind_ok by (apply assign_ok; simpl; apply lookup_insert_eq).
  erewrite bind_ok by (apply load_ok; simpl; apply lookup_insert_eq).
  simpl. rewrite !insert_insert_eq.
  unfold resolve_spec.
  destruct (totalFee userParams) as [tf|]; simpl.
  - erewrite bind_ok by (apply assign_ok; simpl; apply lookup_insert_eq).
    erewrite bind_ok by (apply assign_ok; simpl; apply lookup_insert_eq).
    erewrite bind_ok by (apply assign_ok; simpl; apply lookup_insert_eq).
    simpl. rewrite !insert_insert_eq. unfold ret.
    by destruct (firstValid userParams), (validRounds userParams).
  - erewrite bind_ok by reflexivity.
    erewrite bind_ok by (apply assign_ok; simpl; apply lookup_insert_eq).
    erewrite bind_ok by (apply assign_ok; simpl; apply lookup_insert_eq).
    simpl. rewrite !insert_insert_eq. unfold ret.
    by destruct (firstValid userParams), (validRounds userParams).
Qed.

Lemma mkTxParams_None (algocl : Algodv2) (userParams : TxParams) (w : World) :
  mkTxParams algocl userParams None w =
    bind (getSuggestedParams algocl)
      (fun s => mkTxParams algocl userParams (Some s)) w.
Proof.
  unfold mkTxParams, bind.
  by destruct (getSuggestedParams algocl w) as [w' [l|e]].
Qed.

Lemma mkTxParams_fetch (algocl : Algodv2) (userParams : TxParams) (w : World) :
  mkTxParams algocl userParams None w =
    match getTransactionParams algocl (trace w) with
    | Throw e =>
        (mkWorld (heap w) (trace w ++ [EvGetTransactionParams]), Throw e)
    | Ok raw =>
        if firstRound raw =? 0
        then (mkWorld (<[fresh (dom (heap w)) := raw]> (heap w))
                (trace w ++ [EvGetTransactionParams]), Throw StaleNetworkError)
        else (mkWorld (<[fresh (dom (heap w)) := resolve_spec userParams raw]> (heap w))
                (trace w ++ [EvGetTransactionParams]), Ok (fresh (dom (heap w))))
    end.
Proof.
  rewrite mkTxParams_None.
  pose proof (getSuggestedParams_run algocl w) as Hget.
  destruct (getTransactionParams algocl (trace w)) as [raw|e].
  - destruct (firstRound raw =? 0).
    + by rewrite (bind_throw _ _ _ _ _ Hget).
    + rewrite (bind_ok _ _ _ _ _ Hget).
      rewrite (mkTxParams_supplied _ _ _ raw) by apply lookup_insert_eq.
      simpl. by rewrite insert_insert_eq.
  - by rewrite (bind_throw _ _ _ _ _ Hget).
Qed.

(** Whatever [mkTxParams] accepts, it resolves to the specification's merge. *)
Lemma mkTxParams_accepts (algocl : Algodv2) (userParams : TxParams)
    (s : option loc) (raw : SuggestedParams) (w : World) :
  accepts algocl w s raw ->
  exists (w' : World) (l : loc),
    mkTxParams algocl userParams s w = (w', Ok l)
    /\ heap w' !! l = Some (resolve_spec userParams raw).
Proof.
  intros [l raw' Hl | raw' Hnode Hlive].
  - eexists _, l. split; [by apply mkTxParams_supplied|].
    simpl. apply lookup_insert_eq.
  - rewrite mkTxParams_fetch, Hnode.
    apply Z.eqb_neq in Hlive. rewrite Hlive.
    eexists _, _. split; [done|]. simpl. apply lookup_insert_eq.
Qed.
End Resolution.

Section ResolutionClaims.
Context `{sdk : AlgoSdk} {rt : Runtime} {op : AlgoOperator}.

(** C2: whatever raw params [mkTxParams] accepts, the resolved [flatFee] is
    true exactly when [userParams.totalFee] is present; the resolved [fee]
    is [totalFee] if present, else [feePerByte] if present, else
    [ALGORAND_MIN_TX_FEE], raised to at least [ALGORAND_MIN_TX_FEE] only
    when [flatFee] is true. So [totalFee = 5000] gives [flatFee = true] and
    [fee = max(5000, ALGORAND_MIN_TX_FEE)], and [feePerByte = 10] without
    [totalFee] gives [flatFee = false] and [fee = 10]. *)
Theorem mkTxParams_fee (algocl : Algodv2) (userParams : TxParams)
    (s : option loc) (raw : SuggestedParams) (w : World) :
  accepts algocl w s raw ->
  exists (w' : World) (l : loc) (r : SuggestedParams),
    mkTxParams algocl userParams s w = (w', Ok l)
    /\ heap w' !! l = Some r
    /\ flatFee r = Some (defined (totalFee userParams))
    /\ fee r = match totalFee userParams, feePerByte userParams with
               | Some total, _ => Z.max total ALGORAND_MIN_TX_FEE
               | None, Some perByte => perByte
               | None, None => ALGORAND_MIN_TX_FEE
               end
    /\ (totalFee userParams = Some 5000 ->
        flatFee r = Some true /\ fee r = Z.max 5000 ALGORAND_MIN_TX_FEE)
    /\ (totalFee userParams = None -> feePerByte userParams = Some 10 ->
        flatFee r = Some false /\ fee r = 10).
Proof.
  intros Hacc.
  destruct (mkTxParams_accepts algocl userParams s raw w Hacc) as (w' & l & Hrun & Hl).
  exists w', l, (resolve_spec userParams raw).
  split; [done|]. split; [done|]. split; [done|]. split; [|split].
  - simpl. by destruct (totalFee userParams), (feePerByte userParams).
  - intros Htotal. simpl. by rewrite Htotal.
  - intros Htotal Hper. simpl. by rewrite Htotal, Hper.
Qed.

(** C4: whatever raw params [mkTxParams] accepts, the resolved [firstRound]
    is [userParams.firstValid] when present, else the raw [firstRound]; the
    resolved [lastRound] is the raw [lastRound] unless both [firstValid]
    and [validRounds] are supplied, and then it is their sum. So
    [firstValid = 100] with [validRounds = 50] gives [lastRound = 150], and
    [firstValid] alone leaves [lastRound] at the raw value. *)
Theorem mkTxParams_rounds (algocl : Algodv2) (userParams : TxParams)
    (s : option loc) (raw : SuggestedParams) (w : World) :
  accepts algocl w s raw ->
  exists (w' : World) (l : loc) (r : SuggestedParams),
    mkTxParams algocl userParams s w = (w', Ok l)
    /\ heap w' !! l = Some r
    /\ firstRound r = match firstValid userParams with
                      | Some fv => fv
                      | None => firstRound raw
                      end
    /\ lastRound r = match firstValid userParams, validRounds userParams with
                     | Some fv, Some vr => fv + vr
                     | _, _ => lastRound raw
                     end
    /\ (firstValid userParams = Some 100 -> validRounds userParams = Some 50 ->
        lastRound r = 150)
    /\ (validRounds userParams = None -> lastRound r = lastRound raw).
Proof.
  intros Hacc.
  destruct (mkTxParams_accepts algocl userParams s raw w Hacc) as (w' & l & Hrun & Hl).
  exists w', l, (resolve_spec userParams raw).
  split; [done|]. split; [done|]. split; [done|]. split; [done|]. split.
  - intros Hfv Hvr. simpl. by rewrite Hfv, Hvr.
  - intros Hvr. simpl. rewrite Hvr. by destruct (firstValid userParams).
Qed.

(** C3: when the node answers with raw params whose [firstRound] is 0,
    [getSuggestedParams] throws StaleNetworkError, and so do every
    [mkTxParams] call that has to fetch and every [executeTransaction]
    call; the answer is neither returned nor changed (it stays, as
    received, in the object the client made for it) and nothing happens
    after the request. *)
Theorem stale_params_rejected (deployer : AlgobDeployer) (raw : SuggestedParams)
    (w : World) :
  getTransactionParams (algodClient deployer) (trace w) = Ok raw ->
  firstRound raw = 0 ->
  let stopped :=
    mkWorld (<[fresh (dom (heap w)) := raw]> (heap w))
      (trace w ++ [EvGetTransactionParams]) in
  getSuggestedParams (algodClient deployer) w = (stopped, Throw StaleNetworkError)
  /\ (forall userParams : TxParams,
        mkTxParams (algodClient deployer) userParams None w
        = (stopped, Throw StaleNetworkError))
  /\ (forall execParams : ExecParamsArg,
        executeTransaction deployer execParams w
        = (stopped, Throw StaleNetworkError)).
Proof.
  intros Hnode Hzero stopped. subst stopped.
  assert (Hget : getSuggestedParams (algodClient deployer) w =
    (mkWorld (<[fresh (dom (heap w)) := raw]> (heap w))
       (trace w ++ [EvGetTransactionParams]),
     Throw StaleNetworkError)).
  { by rewrite getSuggestedParams_run, Hnode, Hzero. }
  split; [done|]. split.
  - intros userParams. by rewrite mkTxParams_fetch, Hnode, Hzero.
  - intros execParams. unfold executeTransaction.
    by rewrite (bind_throw _ _ _ _ _ Hget).
Qed.

(** C9, as amended: [mkTxParams(algocl, userParams, s)] with a
    caller-supplied object [s] assigns the merged [flatFee], [fee],
    [firstRound] and [lastRound] to [s] itself and returns that same
    object; [genesisID] and [genesisHash] of [s], every other object and
    the trace of collaborator calls are left as they were. *)
Theorem mkTxParams_in_place (algocl : Algodv2) (userParams : TxParams) (s : loc)
    (raw : SuggestedParams) (w : World) :
  heap w !! s = Some raw ->
  exists (w' : World) (r : SuggestedParams),
    mkTxParams algocl userParams (Some s) w = (w', Ok s)
    /\ heap w' !! s = Some r
    /\ r = resolve_spec userParams raw
    /\ genesisID r = genesisID raw
    /\ genesisHash r = genesisHash raw
    /\ (forall l : loc, l <> s -> heap w' !! l = heap w !! l)
    /\ trace w' = trace w.
Proof.
  intros Hs. eexists _, (resolve_spec userParams raw).
  split; [by apply mkTxParams_supplied|].
  simpl. split; [apply lookup_insert_eq|].
  split; [done|]. split; [done|]. split; [done|]. split; [|done].
  intros l Hl. by apply lookup_insert_ne.
Qed.

(** C10: [mkTxParams(algocl, userParams, s)] with a caller-supplied object
    [s] whose [firstRound] is 0 does not throw StaleNetworkError: nothing
    is fetched, so nothing is checked; the stale params are merged and the
    object is returned. *)
Theorem supplied_stale_params_accepted (algocl : Algodv2) (userParams : TxParams)
    (s : loc) (raw : SuggestedParams) (w : World) :
  heap w !! s = Some raw ->
  firstRound raw = 0 ->
  exists (w' : World) (r : SuggestedParams),
    mkTxParams algocl userParams (Some s) w = (w', Ok s)
    /\ trace w' = trace w
    /\ heap w' !! s = Some r
    /\ r = resolve_spec userParams raw
    /\ firstRound r = nullish (firstValid userParams) 0.
Proof.
  intros Hs Hzero. eexists _, (resolve_spec userParams raw).
  split; [by apply mkTxParams_supplied|].
  simpl. split; [done|]. split; [apply lookup_insert_eq|].
  split; [done|]. by rewrite Hzero.
Qed.
End ResolutionClaims.

(** ** Signing *)

Section Signing.
Context `{sdk : AlgoSdk}.

(** C7, as amended: [signTransaction] with [sign = SecretKey] signs with
    [execParams.fromAccount.sk]; with [sign = LogicSignature] and
    [execParams.lsig] undefined it throws MissingLogicSigError; with
    [sign = LogicSignature] and [execParams.lsig] defined it signs with
    that logic signature; with any other [SignType] value it throws
    UnknownSignTypeError; no other outcome is possible. *)
Theorem signTransaction_outcomes (txn : Transaction) (execParams : ExecParams)
    (w : World) :
  let run := signTransaction txn execParams w in
  (sign execParams = SignType.SecretKey
   /\ run.2 = signTxn txn (sk (fromAccount execParams))
   /\ trace run.1 = trace w ++ [EvSignTxn txn (sk (fromAccount execParams))])
  \/ (sign execParams = SignType.LogicSignature
      /\ lsig execParams = None
      /\ run = (w, Throw MissingLogicSigError))
  \/ (exists logicsig : LogicSig,
        sign execParams = SignType.LogicSignature
        /\ lsig execParams = Some logicsig
        /\ run.2 = signLogicSigTransactionObject txn logicsig
        /\ trace run.1 = trace w ++ [EvSignLogicSig txn logicsig])
  \/ (exists tag : nat,
        sign execParams = SignType.Other tag
        /\ run = (w, Throw UnknownSignTypeError)).
Proof.
  unfold signTransaction.
  destruct (sign execParams) as [| |tag].
  - left. by repeat split.
  - destruct (lsig execParams) as [logicsig|].
    + right. right. left. exists logicsig. by repeat split.
    + right. left. by repeat split.
  - right. right. right. by exists tag.
Qed.
End Signing.

(** C7, the claim as stated fails: with [sign = LogicSignature] and a logic
    signature at hand, the outcome is the blob signed with that logic
    signature, which is none of the three outcomes the claim allows. *)
Lemma signTransaction_logic_signature_blob :
  (@signTransaction Fixtures.toySdk Fixtures.builtPayment Fixtures.contractPayment
     Fixtures.emptyWorld).2 = Ok [Byte.x02; Byte.x09]
  /\ @signTxn Fixtures.toySdk Fixtures.builtPayment
       (sk (@fromAccount Fixtures.toySdk Fixtures.contractPayment))
     = Ok [Byte.x01; Byte.x07]
  /\ Ok [Byte.x02; Byte.x09] <> (Ok [Byte.x01; Byte.x07] : Result Blob)
  /\ Ok [Byte.x02; Byte.x09] <> (Throw MissingLogicSigError : Result Blob)
  /\ Ok [Byte.x02; Byte.x09] <> (Throw UnknownSignTypeError : Result Blob).
Proof. by repeat split. Qed.

(** ** The note of an asset creation *)

Section Notes.
Context `{sdk : AlgoSdk} {rt : Runtime}.

(** C6, at the failing input: the deployment flags carry the note "hello"
    and an empty base64 note, the ASA definition carries the note "asa";
    the transaction gets the note encoded from the ASA definition. *)
Theorem makeAssetCreateTxn_masked_note (name : string)
    (txSuggestedParams : SuggestedParams) :
  assetCreateNote Fixtures.notedAsa Fixtures.maskedFlags
  = encodeNote (Some "asa"%string) None
  /\ exists args : AssetCreateArgs,
       makeAssetCreateTxn name Fixtures.notedAsa Fixtures.maskedFlags txSuggestedParams
       = makeAssetCreateTxnWithSuggestedParams args
       /\ ac_note args = encodeNote (Some "asa"%string) None.
Proof. split; [done|]. by eexists. Qed.

(** What [makeAssetCreateTxn] does with the two sources: the first of
    [flags.noteb64 ?? flags.note] and [asaDef.noteb64 ?? asaDef.note] that
    is a non-empty string selects its source, whose two fields alone go to
    the encoder; with none the note is undefined. *)
Lemma assetCreateNote_cases (asaDef : ASADef.t) (flags : ASADeploymentFlags) :
  (truthy (nullish_opt (noteb64 flags) (note flags)) = true
   /\ assetCreateNote asaDef flags = encodeNote (note flags) (noteb64 flags))
  \/ (truthy (nullish_opt (noteb64 flags) (note flags)) = false
      /\ truthy (nullish_opt (ASADef.noteb64 asaDef) (ASADef.note asaDef)) = true
      /\ assetCreateNote asaDef flags
         = encodeNote (ASADef.note asaDef) (ASADef.noteb64 asaDef))
  \/ (truthy (nullish_opt (noteb64 flags) (note flags)) = false
      /\ truthy (nullish_opt (ASADef.noteb64 asaDef) (ASADef.note asaDef)) = false
      /\ assetCreateNote asaDef flags = None).
Proof.
  unfold assetCreateNote.
  destruct (truthy (nullish_opt (noteb64 flags) (note flags))); [by left|].
  destruct (truthy (nullish_opt (ASADef.noteb64 asaDef) (ASADef.note asaDef)));
    right; [by left | by right].
Qed.
End Notes.

(** ** Parameter resolution on concrete inputs *)

Module ResolutionExamples.
Import Fixtures.

(** [totalFee = 5000] on a supplied object: flat fee 5000. *)
Lemma mkTxParams_fee_witness :
  exists (w' : World) (l : loc) (r : SuggestedParams),
    mkTxParams (sdk:=toySdk) (op:=toyOperator) (node liveParams) flatFee5000
      (Some 1%positive) (worldWith liveParams) = (w', Ok l)
    /\ heap w' !! l = Some r
    /\ flatFee r = Some true
    /\ fee r = 5000.
Proof.
  destruct (mkTxParams_fee (sdk:=toySdk) (op:=toyOperator) (node liveParams)
              flatFee5000 (Some 1%positive) liveParams (worldWith liveParams))
    as (w' & l & r & Hrun & Hl & _ & _ & Htotal & _).
  - apply accepts_supplied. apply lookup_singleton_eq.
  - exists w', l, r. destruct (Htotal eq_refl) as [Hflat Hfee].
    split; [exact Hrun|]. split; [exact Hl|]. split; [exact Hflat|]. exact Hfee.
Defined.

(** [firstValid = 100], [validRounds = 50] on fetched params: the window
    is 100 to 150. *)
Lemma mkTxParams_rounds_witness :
  exists (w' : World) (l : loc) (r : SuggestedParams),
    mkTxParams (sdk:=toySdk) (op:=toyOperator) (node liveParams) window None
      emptyWorld = (w', Ok l)
    /\ heap w' !! l = Some r
    /\ firstRound r = 100
    /\ lastRound r = 150.
Proof.
  destruct (mkTxParams_rounds (sdk:=toySdk) (op:=toyOperator) (node liveParams)
              window None liveParams emptyWorld)
    as (w' & l & r & Hrun & Hl & Hfirst & _ & Hlast & _).
  - by apply accepts_fetched.
  - exists w', l, r.
    split; [exact Hrun|]. split; [exact Hl|]. split; [exact Hfirst|].
    exact (Hlast eq_refl eq_refl).
Defined.

(** A node stuck at round 0 stops a group of two. *)
Lemma stale_params_rejected_witness :
  (executeTransaction (sdk:=toySdk) (rt:=toyRuntime) (op:=toyOperator) (deployerOn staleParams)
     (Array [payment; contractPayment]) emptyWorld).2
  = Throw StaleNetworkError.
Proof.
  destruct (stale_params_rejected (sdk:=toySdk) (rt:=toyRuntime) (op:=toyOperator)
              (deployerOn staleParams) staleParams emptyWorld eq_refl eq_refl)
    as (_ & _ & Hexec).
  by rewrite Hexec.
Defined.

(** The caller's object, before and after [mkTxParams]. *)
Lemma mkTxParams_in_place_witness :
  exists w' : World,
    mkTxParams (sdk:=toySdk) (op:=toyOperator) (node liveParams) flatFee5000
      (Some 1%positive) (worldWith liveParams) = (w', Ok 1%positive)
    /\ heap w' !! 1%positive
       = Some (mkSuggestedParams (Some true) 5000 500 1500 "testnet-v1.0" "SGO1").
Proof.
  destruct (mkTxParams_in_place (sdk:=toySdk) (op:=toyOperator) (node liveParams)
              flatFee5000 1%positive liveParams (worldWith liveParams))
    as (w' & r & Hrun & Hs & Hr & _).
  - apply lookup_singleton_eq.
  - exists w'. split; [exact Hrun|]. rewrite Hr in Hs. exact Hs.
Defined.

(** C9, the claim as stated fails: after [mkTxParams] with [totalFee = 5000]
    on the caller's object at location 1, the reference returned is
    location 1 again, and the object's [fee], 0 before the call, is
    5000. *)
Lemma mkTxParams_overwrites_argument :
  heap (worldWith liveParams) !! 1%positive = Some liveParams
  /\ fee liveParams = 0
  /\ exists w' : World,
       mkTxParams (sdk:=toySdk) (op:=toyOperator) (node liveParams) flatFee5000
         (Some 1%positive) (worldWith liveParams) = (w', Ok 1%positive)
       /\ fee <$> heap w' !! 1%positive = Some 5000.
Proof.
  split; [apply lookup_singleton_eq|]. split; [done|].
  eexists. split.
  - apply mkTxParams_supplied. apply lookup_singleton_eq.
  - simpl. change (1%positive) with (1%positive : loc).
    by rewrite lookup_insert_eq.
Qed.

(** Stale params handed in by the caller come back merged. *)
Lemma supplied_stale_params_accepted_witness :
  exists w' : World,
    mkTxParams (sdk:=toySdk) (op:=toyOperator) (node liveParams) flatFee5000
      (Some 1%positive) (worldWith staleParams) = (w', Ok 1%positive)
    /\ firstRound <$> heap w' !! 1%positive = Some 0.
Proof.
  destruct (supplied_stale_params_accepted (sdk:=toySdk) (op:=toyOperator)
              (node liveParams) flatFee5000 1%positive staleParams
              (worldWith staleParams))
    as (w' & r & Hrun & _ & Hs & _ & Hfirst).
  - apply lookup_singleton_eq.
  - done.
  - exists w'. split; [exact Hrun|].
    change (firstRound <$> heap w' !! (1%positive : loc) = Some 0).
    rewrite Hs. simpl. by rewrite Hfirst.
Defined.
End ResolutionExamples.

(** ** Submission *)

Section Steps.
Context `{sdk : AlgoSdk}.
Variable R : World -> World -> Prop.
Hypothesis R_refl : forall w, R w w.
Hypothesis R_trans : forall a b c, R a b -> R b c -> R a c.

Lemma steps_ret {A : Type} (a : A) : steps R (ret a).
Proof. intros w. apply R_refl. Qed.

Lemma steps_throw {A : Type} (e : JsError) : steps R (throw (A:=A) e).
Proof. intros w. apply R_refl. Qed.

Lemma steps_liftR {A : Type} (r : Result A) : steps R (liftR r).
Proof. intros w. apply R_refl. Qed.

Lemma steps_bind {A B : Type} (m : M A) (f : A -> M B) :
  steps R m -> (forall a, steps R (f a)) -> steps R (bind m f).
Proof.
  intros Hm Hf w. unfold bind. specialize (Hm w).
  destruct (m w) as [w' [a|e]]; simpl in *; [|done].
  eapply R_trans; [exact Hm|apply Hf].
Qed.

Lemma steps_forOf {A B : Type} (f : A -> M B) (xs : list A) :
  (forall x, steps R (f x)) -> steps R (forOf f xs).
Proof.
  intros Hf. induction xs as [|x xs IH]; simpl.
  - apply steps_ret.
  - apply steps_bind; [apply Hf|]. intros b.
    apply steps_bind; [apply IH|]. intros bs. apply steps_ret.
Qed.

Lemma steps_mapIndexed {A B : Type} (f : A -> nat -> M B) (xs : list A) (index : nat) :
  (forall x i, steps R (f x i)) -> steps R (mapIndexed f index xs).
Proof.
  intros Hf. revert index. induction xs as [|x xs IH]; intros index; simpl.
  - apply steps_ret.
  - apply steps_bind; [apply Hf|]. intros b.
    apply steps_bind; [apply IH|]. intros bs. apply steps_ret.
Qed.
End Steps.

Section Submission.
Context `{sdk : AlgoSdk} {rt : Runtime} {op : AlgoOperator}.

Lemma steps_weaken {A : Type} (R R' : World -> World -> Prop) (m : M A) :
  (forall w w', R w w' -> R' w w') -> steps R m -> steps R' m.
Proof. intros Hsub Hm w. apply Hsub, Hm. Qed.

Lemma fetches_app (tr1 tr2 : list Event) :
  fetches (tr1 ++ tr2) = (fetches tr1 + fetches tr2)%nat.
Proof. unfold fetches. by rewrite List.filter_app, length_app. Qed.

Lemma builds_app (tr1 tr2 : list Event) :
  builds (tr1 ++ tr2) = builds tr1 ++ builds tr2.
Proof. apply omap_app. Qed.

Lemma quiet_refl (w : World) : quiet w w.
Proof. split; [done|]. exists []. by rewrite app_nil_r. Qed.

Lemma quiet_trans (a b c : World) : quiet a b -> quiet b c -> quiet a c.
Proof.
  intros (Hh1 & tr1 & Ht1 & Hf1 & Hb1) (Hh2 & tr2 & Ht2 & Hf2 & Hb2).
  split; [congruence|]. exists (tr1 ++ tr2).
  rewrite Ht2, Ht1, fetches_app, builds_app, Hf1, Hf2, Hb1, Hb2.
  by rewrite app_assoc.
Qed.

Lemma quiet_one (w : World) (e : Event) :
  isFetch e = false -> build_of e = None ->
  quiet w (mkWorld (heap w) (trace w ++ [e])).
Proof.
  intros Hfetch Hbuild. split; [done|]. exists [e]. split; [done|].
  unfold fetches, builds. simpl. by rewrite Hfetch, Hbuild.
Qed.

Lemma quiet_emit (e : Event) :
  isFetch e = false -> build_of e = None -> steps quiet (emit e).
Proof. intros Hfetch Hbuild w. by apply quiet_one. Qed.

Lemma quiet_bind {A B : Type} (m : M A) (f : A -> M B) :
  steps quiet m -> (forall a, steps quiet (f a)) -> steps quiet (bind m f).
Proof. apply steps_bind. apply quiet_trans. Qed.

Lemma quiet_signTransaction (txn : Transaction) (p : ExecParams) :
  steps quiet (signTransaction txn p).
Proof.
  unfold signTransaction. destruct (sign p).
  - apply quiet_bind; [by apply quiet_emit|]. intros _.
    apply steps_liftR, quiet_refl.
  - destruct (lsig p).
    + apply quiet_bind; [by apply quiet_emit|]. intros _.
      apply steps_liftR, quiet_refl.
    + apply steps_throw, quiet_refl.
  - apply steps_throw, quiet_refl.
Qed.

Lemma quiet_callAssignGroupID (txns : list Transaction) :
  steps quiet (callAssignGroupID txns).
Proof.
  apply quiet_bind; [by apply quiet_emit|]. intros _.
  apply steps_liftR, quiet_refl.
Qed.

Lemma quiet_sendAndWait (deployer : AlgobDeployer) (rawTxns : RawTxns) :
  steps quiet (sendAndWait deployer rawTxns).
Proof.
  apply quiet_bind.
  - intros w. by apply quiet_one.
  - intros txId w. by apply quiet_one.
Qed.

(** One build: a fresh copy of the snapshot is merged with the
    transaction's [payFlags] and handed to the builder, which may change it. *)
Lemma mkTx_run (deployer : AlgobDeployer) (snapshot : loc) (p : ExecParams)
    (raw : SuggestedParams) (w : World) :
  heap w !! snapshot = Some raw ->
  mkTx deployer snapshot p w =
    (mkWorld
       (<[fresh (dom (heap w)) := (mkTransaction p (resolve_spec (payFlags p) raw)).1]>
          (heap w))
       (trace w ++ [EvMkTransaction p (fresh (dom (heap w)))
                      (resolve_spec (payFlags p) raw)]),
     (mkTransaction p (resolve_spec (payFlags p) raw)).2).
Proof.
  intros Hsnap. unfold mkTx, objectAssignEmpty.
  rewrite (bind_ok _ _ w
             (mkWorld (<[fresh (dom (heap w)) := raw]> (heap w)) (trace w))
             (fresh (dom (heap w)))).
  2: { by rewrite (bind_ok _ _ _ _ _ (load_ok _ _ _ Hsnap)). }
  erewrite bind_ok
    by (apply (mkTxParams_supplied _ _ _ raw); simpl; apply lookup_insert_eq).
  unfold callMkTransaction. simpl. rewrite lookup_insert_eq.
  destruct (mkTransaction p (resolve_spec (payFlags p) raw)) as [o' r]. simpl.
  by rewrite !insert_insert_eq.
Qed.

Lemma one_snapshot_quiet (w0 : World) (raw : SuggestedParams) (w w' : World) :
  quiet w w' -> one_snapshot w0 raw w -> one_snapshot w0 raw w'.
Proof.
  intros (Hheap & tr' & Htr' & Hf' & Hb') (Hsnap & Hdom & tr & Htr & Hf & Hown & Hnd).
  unfold one_snapshot. rewrite Hheap. split; [done|]. split; [done|].
  exists (tr ++ tr'). rewrite Htr', Htr, fetches_app, builds_app, Hf, Hf', Hb', app_nil_r.
  split; [by rewrite <- app_assoc|]. done.
Qed.

Lemma one_snapshot_mkTx (deployer : AlgobDeployer) (w0 : World)
    (raw : SuggestedParams) (p : ExecParams) (w : World) :
  one_snapshot w0 raw w ->
  one_snapshot w0 raw (mkTx deployer (fresh (dom (heap w0))) p w).1.
Proof.
  intros (Hsnap & Hdom & tr & Htr & Hf & Hown & Hnd).
  rewrite (mkTx_run _ _ _ raw) by done. simpl.
  pose proof (is_fresh (dom (heap w))) as Hfresh.
  assert (Hne : fresh (dom (heap w)) <> fresh (dom (heap w0))).
  { intros Heq. apply Hfresh. rewrite Heq. apply elem_of_dom. by eexists. }
  unfold one_snapshot. simpl. split; [by rewrite lookup_insert_ne|].
  split; [rewrite dom_insert_L; set_solver|].
  exists (tr ++ [EvMkTransaction p (fresh (dom (heap w))) (resolve_spec (payFlags p) raw)]).
  rewrite Htr, fetches_app, builds_app, Hf. simpl.
  split; [by rewrite <- app_assoc|]. split; [done|]. split.
  - apply Forall_app. split.
    + eapply Forall_impl; [exact Hown|]. intros b [Hb Hin]. split; [done|].
      rewrite dom_insert_L. set_solver.
    + apply Forall_singleton. split.
      * split; [done|]. split; [done|]. simpl.
        apply not_elem_of_dom. set_solver.
      * simpl. rewrite dom_insert_L. set_solver.
  - rewrite map_app. simpl. apply NoDup_app. split; [done|]. split.
    + intros l Hl Hl'. apply list_elem_of_singleton in Hl'. subst l.
      apply list_elem_of_fmap in Hl as (b & Hb & Hin).
      rewrite Forall_forall in Hown. destruct (Hown b Hin) as [_ Hdomb].
      apply Hfresh. by rewrite Hb.
    + apply NoDup_singleton.
Qed.
Lemma executeTransaction_keeps_snapshot (deployer : AlgobDeployer)
    (execParams : ExecParamsArg) (w0 : World) (raw : SuggestedParams) :
  steps (fun w w' => one_snapshot w0 raw w -> one_snapshot w0 raw w')
    (signedTxn <-
       match execParams with
       | Array execParams =>
           if (16 <? length execParams)%nat then throw GroupSizeExceededError
           else
             txns <- forOf (mkTx deployer (fresh (dom (heap w0)))) execParams ;;
             txns <- callAssignGroupID txns ;;
             signed <- mapIndexed
               (fun txn index =>
                  match execParams !! index with
                  | None => throw TypeError
                  | Some p =>
                      signed <- signTransaction txn p ;;
                      emit (EvLog ("Signed transaction " +:+ pretty index) signed) ;;
                      ret signed
                  end) 0%nat txns ;;
             ret (RawMany signed)
       | Single execParams =>
           txn <- mkTx deployer (fresh (dom (heap w0))) execParams ;;
           signed <- signTransaction txn execParams ;;
           emit (EvLog "Signed transaction:" signed) ;;
           ret (RawOne signed)
       end ;;
     confirmedTx <- sendAndWait deployer signedTxn ;;
     emit (EvConsoleLog confirmedTx) ;;
     ret confirmedTx)%js.
Proof.
  set (R := fun w w' : World => one_snapshot w0 raw w -> one_snapshot w0 raw w').
  assert (Hrefl : forall w, R w w) by (intros w Hw; exact Hw).
  assert (Htrans : forall a b c, R a b -> R b c -> R a c).
  { intros a b c Hab Hbc Ha. apply Hbc, Hab, Ha. }
  assert (Hquiet : forall (A : Type) (m : M A), steps quiet m -> steps R m).
  { intros A m. apply steps_weaken. intros w w' Hq Hw.
    by apply (one_snapshot_quiet w0 raw w w'). }
  assert (Hbuild : forall p, steps R (mkTx deployer (fresh (dom (heap w0))) p)).
  { intros p w Hw. by apply one_snapshot_mkTx. }
  assert (Hsign : forall txn p msg,
    steps R (signed <- signTransaction txn p ;; emit (EvLog msg signed) ;; ret signed)%js).
  { intros txn p msg. apply Hquiet. apply quiet_bind; [apply quiet_signTransaction|].
    intros signed. apply quiet_bind; [by apply quiet_emit|]. intros _.
    apply steps_ret, quiet_refl. }
  apply (steps_bind R Htrans).
  - destruct execParams as [p|ps].
    + apply (steps_bind R Htrans); [apply Hbuild|]. intros txn.
      apply Hquiet. apply quiet_bind; [apply quiet_signTransaction|].
      intros signed. apply quiet_bind; [by apply quiet_emit|]. intros _.
      apply steps_ret, quiet_refl.
    + destruct (16 <? length ps)%nat; [by apply steps_throw|].
      apply (steps_bind R Htrans); [by apply steps_forOf|]. intros txns.
      apply (steps_bind R Htrans); [apply Hquiet, quiet_callAssignGroupID|].
      intros grouped. apply (steps_bind R Htrans); [|intros signed; by apply steps_ret].
      apply steps_mapIndexed; [done|done|]. intros txn index.
      destruct (ps !! index); [apply Hsign | by apply steps_throw].
  - intros signedTxn. apply Hquiet.
    apply quiet_bind; [apply quiet_sendAndWait|]. intros confirmedTx.
    apply quiet_bind; [by apply quiet_emit|]. intros _.
    apply steps_ret, quiet_refl.
Qed.

(** One request per call; when the node answers, the snapshot is kept and
    every build that happens has a copy of its own. *)
Lemma executeTransaction_snapshot_kept (deployer : AlgobDeployer)
    (execParams : ExecParamsArg) (w : World) :
  exists tr : list Event,
    trace (executeTransaction deployer execParams w).1 = trace w ++ tr
    /\ fetches tr = 1%nat
    /\ match getTransactionParams (algodClient deployer) (trace w) with
       | Throw _ => builds tr = []
       | Ok raw =>
           heap (executeTransaction deployer execParams w).1
             !! fresh (dom (heap w)) = Some raw
           /\ Forall (own_copy w raw) (builds tr)
           /\ NoDup (map (fun b => b.1.2) (builds tr))
       end.
Proof.
  unfold executeTransaction.
  pose proof (getSuggestedParams_run (algodClient deployer) w) as Hget.
  destruct (getTransactionParams (algodClient deployer) (trace w)) as [raw|e].
  - destruct (firstRound raw =? 0).
    + rewrite (bind_throw _ _ _ _ _ Hget). simpl.
      exists [EvGetTransactionParams]. split; [done|]. split; [done|].
      split; [apply lookup_insert_eq|]. split; [apply Forall_nil_2 | apply NoDup_nil_2].
    + rewrite (bind_ok _ _ _ _ _ Hget).
      pose proof (executeTransaction_keeps_snapshot deployer execParams w raw
        (mkWorld (<[fresh (dom (heap w)) := raw]> (heap w))
           (trace w ++ [EvGetTransactionParams]))) as Hkeep.
      simpl in Hkeep.
      assert (Hinit : one_snapshot w raw
        (mkWorld (<[fresh (dom (heap w)) := raw]> (heap w))
           (trace w ++ [EvGetTransactionParams]))).
      { split; [apply lookup_insert_eq|].
        split; [simpl; rewrite dom_insert_L; set_solver|].
        exists []. split; [done|]. split; [done|].
        split; [apply Forall_nil_2 | apply NoDup_nil_2]. }
      destruct (Hkeep Hinit) as (Hsnap & _ & tr & Htr & Hf & Hown & Hnd).
      exists (EvGetTransactionParams :: tr).
      split; [exact Htr|]. split; [unfold fetches in *; simpl; by rewrite Hf|].
      split; [exact Hsnap|]. split; [|exact Hnd].
      eapply Forall_impl; [exact Hown|]. by intros b [Hb _].
  - rewrite (bind_throw _ _ _ _ _ Hget). simpl.
    exists [EvGetTransactionParams]. by split.
Qed.
(** C1, as amended: [executeTransaction] on a list of 17 or more ExecParams
    asks the node for the suggested params and then fails: with the node's
    error when the request fails, with StaleNetworkError when the answer has
    [firstRound] 0, and with GroupSizeExceededError otherwise. In every case
    the request is the only thing that happened: no transaction is built or
    signed and nothing is submitted. *)
Theorem executeTransaction_group_too_large (deployer : AlgobDeployer)
    (execParams : list ExecParams) (w : World) :
  (16 < length execParams)%nat ->
  exists (w' : World) (e : JsError),
    executeTransaction deployer (Array execParams) w = (w', Throw e)
    /\ trace w' = trace w ++ [EvGetTransactionParams]
    /\ e = match getTransactionParams (algodClient deployer) (trace w) with
           | Throw nodeError => nodeError
           | Ok raw => if firstRound raw =? 0 then StaleNetworkError
                       else GroupSizeExceededError
           end.
Proof.
  intros Hlen. apply Nat.ltb_lt in Hlen. unfold executeTransaction.
  pose proof (getSuggestedParams_run (algodClient deployer) w) as Hget.
  destruct (getTransactionParams (algodClient deployer) (trace w)) as [raw|nodeError].
  - destruct (firstRound raw =? 0).
    + rewrite (bind_throw _ _ _ _ _ Hget). by eexists _, _.
    + rewrite (bind_ok _ _ _ _ _ Hget). rewrite Hlen.
      erewrite bind_throw by reflexivity. by eexists _, _.
  - rewrite (bind_throw _ _ _ _ _ Hget). by eexists _, _.
Qed.

End Submission.

(** ** Submission on concrete inputs *)

Module SubmissionExamples.
Import Fixtures.

(** Seventeen payments on a live node: the size check stops the call. *)
Lemma executeTransaction_group_too_large_witness :
  (executeTransaction (sdk:=toySdk) (rt:=toyRuntime) (op:=toyOperator)
     (deployerOn liveParams) (Array seventeen) emptyWorld).2
  = Throw GroupSizeExceededError.
Proof.
  destruct (executeTransaction_group_too_large (sdk:=toySdk) (rt:=toyRuntime)
              (op:=toyOperator) (deployerOn liveParams) seventeen emptyWorld)
    as (w' & e & Hrun & _ & He).
  - unfold seventeen. rewrite length_replicate. lia.
  - rewrite Hrun. simpl. by rewrite He.
Defined.

(** C1, the claim as stated fails: seventeen payments on a node whose
    answer has [firstRound] 0 fail with StaleNetworkError, not with
    GroupSizeExceededError. *)
Lemma executeTransaction_stale_before_size_check :
  length seventeen = 17%nat
  /\ (executeTransaction (sdk:=toySdk) (rt:=toyRuntime) (op:=toyOperator)
       (deployerOn staleParams) (Array seventeen) emptyWorld).2
     = Throw StaleNetworkError
  /\ StaleNetworkError <> GroupSizeExceededError.
Proof.
  split; [done|]. split; [|done].
  unfold executeTransaction.
  erewrite bind_throw; [done|].
  by rewrite getSuggestedParams_run.
Qed.


(** The same payment given by itself: no group identifier, one blob. *)
Example executeTransaction_single_payment :
  trace (executeTransaction (sdk:=toySdk) (rt:=toyRuntime) (op:=toyOperator)
           (deployerOn liveParams) (Single payment) emptyWorld).1
  = [EvGetTransactionParams;
     EvMkTransaction payment 2%positive
       (mkSuggestedParams (Some false) 1000 500 1500 "testnet-v1.0" "SGO1");
     EvSignTxn builtPayment [Byte.x07];
     EvLog "Signed transaction:" [Byte.x01; Byte.x07];
     EvSendRawTransaction (RawOne [Byte.x01; Byte.x07]);
     EvWaitForConfirmation "TXID";
     EvConsoleLog (mkConfirmedTxInfo 501)].
Proof. vm_compute. reflexivity. Qed.

(** A mixed group of two: one fetch, two builds on the copies at locations
    2 and 3, one group identifier, one submission; the snapshot at location
    1 still holds the node's answer. *)
Example executeTransaction_group_of_two :
  let run := executeTransaction (sdk:=toySdk) (rt:=toyRuntime) (op:=toyOperator)
               (deployerOn liveParams) (Array [payment; contractPayment]) emptyWorld in
  fetches (trace run.1) = 1%nat
  /\ map (fun b => b.1.2) (builds (trace run.1)) = [2%positive; 3%positive]
  /\ heap run.1 !! 1%positive = Some liveParams
  /\ forallb individual (trace run.1) = false.
Proof. vm_compute. by repeat split. Qed.
End SubmissionExamples.

(** ** More on parameter resolution *)

Section ResolutionMore.
Context `{sdk : AlgoSdk} {op : AlgoOperator}.

Lemma resolve_spec_idempotent (userParams : TxParams) (raw : SuggestedParams) :
  resolve_spec userParams (resolve_spec userParams raw) = resolve_spec userParams raw.
Proof.
  unfold resolve_spec. simpl.
  by destruct (firstValid userParams), (validRounds userParams).
Qed.

(** X2: when [getSuggestedParams] returns, it returns a new object that
    holds the node's answer as received, the answer's [firstRound] is not 0,
    every other object is as before, and the request is the only call
    made. *)
Theorem getSuggestedParams_fresh_live (algocl : Algodv2) (w w' : World) (l : loc) :
  getSuggestedParams algocl w = (w', Ok l) ->
  exists raw : SuggestedParams,
    getTransactionParams algocl (trace w) = Ok raw
    /\ firstRound raw <> 0
    /\ heap w !! l = None
    /\ heap w' = <[l := raw]> (heap w)
    /\ trace w' = trace w ++ [EvGetTransactionParams].
Proof.
  rewrite getSuggestedParams_run.
  destruct (getTransactionParams algocl (trace w)) as [raw|e]; [|done].
  destruct (firstRound raw =? 0) eqn:Hzero; [done|].
  intros [= <- <-]. exists raw. split; [done|].
  split; [by apply Z.eqb_neq|]. split; [|done].
  apply not_elem_of_dom, is_fresh.
Qed.

(** X3: [mkTxParams] is idempotent on an object: a second call with the
    same [userParams] on the object the first call has written changes
    nothing. *)
Theorem mkTxParams_idempotent (algocl : Algodv2) (userParams : TxParams) (s : loc)
    (raw : SuggestedParams) (w : World) :
  heap w !! s = Some raw ->
  exists w1 : World,
    mkTxParams algocl userParams (Some s) w = (w1, Ok s)
    /\ mkTxParams algocl userParams (Some s) w1 = (w1, Ok s).
Proof.
  intros Hs. eexists. split; [by apply mkTxParams_supplied|].
  rewrite (mkTxParams_supplied _ _ _ (resolve_spec userParams raw))
    by apply lookup_insert_eq.
  simpl. by rewrite insert_insert_eq, resolve_spec_idempotent.
Qed.

(** X4: two [mkTxParams] calls on one object compose: the fee and
    [flatFee] are those of the second call alone, but the rounds of the
    first call stay wherever the second call has no override of its own
    ([firstRound] is the second [firstValid], else the first [firstValid],
    else the raw value; likewise [lastRound]). *)
Theorem mkTxParams_reuse (algocl : Algodv2) (first second : TxParams) (s : loc)
    (raw : SuggestedParams) (w : World) :
  heap w !! s = Some raw ->
  exists (w1 w2 : World) (r : SuggestedParams),
    mkTxParams algocl first (Some s) w = (w1, Ok s)
    /\ mkTxParams algocl second (Some s) w1 = (w2, Ok s)
    /\ heap w2 !! s = Some r
    /\ flatFee r = Some (defined (totalFee second))
    /\ fee r = fee (resolve_spec second raw)
    /\ firstRound r
       = nullish (firstValid second) (nullish (firstValid first) (firstRound raw))
    /\ lastRound r
       = match firstValid second, validRounds second with
         | Some fv, Some vr => fv + vr
         | _, _ =>
             match firstValid first, validRounds first with
             | Some fv, Some vr => fv + vr
             | _, _ => lastRound raw
             end
         end.
Proof.
  intros Hs. eexists _, _, (resolve_spec second (resolve_spec first raw)).
  split; [by apply mkTxParams_supplied|].
  split; [apply mkTxParams_supplied; apply lookup_insert_eq|].
  simpl. split; [apply lookup_insert_eq|]. by repeat split.
Qed.

(** X12: the resolved fee is never below [ALGORAND_MIN_TX_FEE], except when
    it is a per-byte fee: if it is below, no [totalFee] was given and the
    fee is the [feePerByte] given, in per-byte mode. *)
Theorem mkTxParams_fee_floor (algocl : Algodv2) (userParams : TxParams)
    (s : option loc) (raw : SuggestedParams) (w : World) :
  accepts algocl w s raw ->
  exists (w' : World) (l : loc) (r : SuggestedParams),
    mkTxParams algocl userParams s w = (w', Ok l)
    /\ heap w' !! l = Some r
    /\ (fee r < ALGORAND_MIN_TX_FEE ->
        totalFee userParams = None
        /\ feePerByte userParams = Some (fee r)
        /\ flatFee r = Some false).
Proof.
  intros Hacc.
  destruct (mkTxParams_accepts algocl userParams s raw w Hacc) as (w' & l & Hrun & Hl).
  exists w', l, (resolve_spec userParams raw).
  split; [done|]. split; [done|]. simpl.
  destruct (totalFee userParams) as [total|]; simpl; [lia|].
  destruct (feePerByte userParams) as [perByte|]; simpl; [done|lia].
Qed.
End ResolutionMore.

(** ** More on submission: the phases of [executeTransaction] *)

Section Phases.
Context `{sdk : AlgoSdk} {rt : Runtime} {op : AlgoOperator}.

Lemma executeTransaction_prepare (deployer : AlgobDeployer)
    (execParams : ExecParamsArg) (w : World) :
  executeTransaction deployer execParams w =
    bind (getSuggestedParams (algodClient deployer))
      (fun suggestedParams =>
         bind (prepare deployer suggestedParams execParams)
           (fun signedTxn =>
              bind (sendAndWait deployer signedTxn)
                (fun confirmedTx =>
                   bind (emit (EvConsoleLog confirmedTx))
                     (fun _ => ret confirmedTx)))) w.
Proof. reflexivity. Qed.

Lemma building_preparing (tr : list Event) :
  forallb building tr = true ->
  forallb preparing tr = true /\ logged tr = [] /\ groupings tr = [].
Proof.
  induction tr as [|e tr IH]; [done|]. simpl.
  intros [He Htr]%andb_prop. destruct (IH Htr) as (Hp & Hl & Hg).
  destruct e; simpl in *; try done; by rewrite ?Hp.
Qed.

Lemma signing_preparing (tr : list Event) :
  forallb signing tr = true ->
  forallb preparing tr = true /\ builds tr = [] /\ groupings tr = [].
Proof.
  induction tr as [|e tr IH]; [done|]. simpl.
  intros [He Htr]%andb_prop. destruct (IH Htr) as (Hp & Hb & Hg).
  destruct e; simpl in *; try done; by rewrite ?Hp.
Qed.

Lemma preparing_sends (tr : list Event) :
  forallb preparing tr = true -> sends tr = [] /\ fetches tr = 0%nat.
Proof.
  induction tr as [|e tr IH]; [done|]. simpl.
  intros [He Htr]%andb_prop. destruct (IH Htr) as (Hs & Hf).
  destruct e; simpl in *; try done.
Qed.

Lemma logged_app (tr1 tr2 : list Event) : logged (tr1 ++ tr2) = logged tr1 ++ logged tr2.
Proof. apply omap_app. Qed.

Lemma groupings_app (tr1 tr2 : list Event) :
  groupings (tr1 ++ tr2) = groupings tr1 ++ groupings tr2.
Proof. apply omap_app. Qed.


(** Signing: at most one call of the SDK, on the world as it is. *)
Lemma signTransaction_run (txn : Transaction) (p : ExecParams) :
  exists tr : list Event,
    forallb signing tr = true /\ logged tr = []
    /\ forall w : World,
         signTransaction txn p w
         = (mkWorld (heap w) (trace w ++ tr), signResult txn p).
Proof.
  unfold signResult, signTransaction.
  destruct (sign p).
  - eexists [_]. by repeat split.
  - destruct (lsig p).
    + eexists [_]. by repeat split.
    + exists []. repeat split. intros [h t]. simpl. by rewrite app_nil_r.
  - exists []. repeat split. intros [h t]. simpl. by rewrite app_nil_r.
Qed.

Lemma forOf_cons {A B : Type} (f : A -> M B) (x : A) (xs : list A) (w : World) :
  forOf f (x :: xs) w =
    match f x w with
    | (w1, Ok b) =>
        match forOf f xs w1 with
        | (w2, Ok bs) => (w2, Ok (b :: bs))
        | (w2, Throw e) => (w2, Throw e)
        end
    | (w1, Throw e) => (w1, Throw e)
    end.
Proof.
  simpl. unfold bind. destruct (f x w) as [w1 [b|e]]; [|done].
  by destruct (forOf f xs w1) as [w2 [bs|e]].
Qed.

Lemma mapIndexed_cons {A B : Type} (f : A -> nat -> M B) (index : nat) (x : A)
    (xs : list A) (w : World) :
  mapIndexed f index (x :: xs) w =
    match f x index w with
    | (w1, Ok b) =>
        match mapIndexed f (S index) xs w1 with
        | (w2, Ok bs) => (w2, Ok (b :: bs))
        | (w2, Throw e) => (w2, Throw e)
        end
    | (w1, Throw e) => (w1, Throw e)
    end.
Proof.
  simpl. unfold bind. destruct (f x index w) as [w1 [b|e]]; [|done].
  by destruct (mapIndexed f (S index) xs w1) as [w2 [bs|e]].
Qed.

(** The building phase of a group: the builder is called on the ExecParams
    in order, each time with a copy of its own, and stops at the first one
    it rejects. *)
Lemma forOf_mkTx_run (deployer : AlgobDeployer) (snapshot : loc)
    (raw : SuggestedParams) (ps : list ExecParams) :
  forall w : World,
    heap w !! snapshot = Some raw ->
    exists tr : list Event,
      trace (forOf (mkTx deployer snapshot) ps w).1 = trace w ++ tr
      /\ heap w ⊆ heap (forOf (mkTx deployer snapshot) ps w).1
      /\ heap (forOf (mkTx deployer snapshot) ps w).1 !! snapshot = Some raw
      /\ forallb building tr = true
      /\ Forall (fun b => b.2 = resolve_spec (payFlags b.1.1) raw) (builds tr)
      /\ map (fun b => b.1.1) (builds tr) `prefix_of` ps
      /\ (forall txns,
            (forOf (mkTx deployer snapshot) ps w).2 = Ok txns ->
            map (fun b => b.1.1) (builds tr) = ps
            /\ Forall2 (fun p t =>
                 (mkTransaction p (resolve_spec (payFlags p) raw)).2 = Ok t) ps txns)
      /\ (forall i b e,
            builds tr !! i = Some b ->
            (mkTransaction b.1.1 b.2).2 = Throw e ->
            (forOf (mkTx deployer snapshot) ps w).2 = Throw e
            /\ length (builds tr) = S i).
Proof.
  induction ps as [|p ps IH]; intros w Hsnap.
  - exists []. simpl. rewrite app_nil_r.
    split; [done|]. split; [done|]. split; [done|]. split; [done|].
    split; [done|]. split; [done|]. split; [|done].
    intros txns [= <-]. by split.
  - rewrite forOf_cons, (mkTx_run _ _ _ raw) by done.
    pose proof (is_fresh (dom (heap w))) as Hfresh.
    assert (Hnone : heap w !! fresh (dom (heap w)) = None)
      by by apply not_elem_of_dom.
    assert (Hne : fresh (dom (heap w)) <> snapshot) by congruence.
    destruct (mkTransaction p (resolve_spec (payFlags p) raw)) as [o' [t|e]] eqn:Hbuild;
      simpl.
    + set (w1 := mkWorld (<[fresh (dom (heap w)) := o']> (heap w))
                   (trace w ++ [EvMkTransaction p (fresh (dom (heap w)))
                                  (resolve_spec (payFlags p) raw)])).
      destruct (IH w1) as (tr & Htr & Hsub & Hkeep & Hb & Hown & Hpre & Hok & Hfail).
      { simpl. by rewrite lookup_insert_ne. }
      exists (EvMkTransaction p (fresh (dom (heap w))) (resolve_spec (payFlags p) raw) :: tr).
      destruct (forOf (mkTx deployer snapshot) ps w1) as [w2 [bs|e]]; simpl in *.
      * split; [by rewrite Htr, <- app_assoc|].
        split; [etrans; [by apply insert_subseteq|done]|].
        split; [done|]. split; [done|].
        split; [by constructor|].
        split; [by apply prefix_cons|].
        split.
        -- intros txns [= <-]. destruct (Hok bs eq_refl) as [Hps Hall].
           split; [by rewrite Hps|]. constructor; [by rewrite Hbuild|done].
        -- intros [|i] b e Hb' He; simpl in *.
           ++ injection Hb' as <-. simpl in He. by rewrite Hbuild in He.
           ++ by destruct (Hfail i b e Hb' He).
      * split; [by rewrite Htr, <- app_assoc|].
        split; [etrans; [by apply insert_subseteq|done]|].
        split; [done|]. split; [done|].
        split; [by constructor|].
        split; [by apply prefix_cons|].
        split; [done|].
        intros [|i] b e' Hb' He; simpl in *.
        -- injection Hb' as <-. simpl in He. by rewrite Hbuild in He.
        -- destruct (Hfail i b e' Hb' He) as [-> ->]. done.
    + exists [EvMkTransaction p (fresh (dom (heap w))) (resolve_spec (payFlags p) raw)].
      split; [done|]. split; [by apply insert_subseteq|].
      split; [by rewrite lookup_insert_ne|]. split; [done|].
      split; [by repeat constructor|].
      split; [apply prefix_cons, prefix_nil|].
      split; [done|].
      intros [|i] b e' Hb' He; simpl in *; [|done].
      injection Hb' as <-. simpl in He. rewrite Hbuild in He. simpl in He.
      by injection He as <-.
Qed.
(** One step of the signing phase. *)
Lemma signAt_run (ps : list ExecParams) (t : Transaction) (index : nat) (w : World) :
  exists tr : list Event,
    trace (signAt ps t index w).1 = trace w ++ tr
    /\ heap (signAt ps t index w).1 = heap w
    /\ forallb signing tr = true
    /\ forall b,
         (signAt ps t index w).2 = Ok b ->
         logged tr = [b]
         /\ exists p, ps !! index = Some p /\ signResult t p = Ok b.
Proof.
  unfold signAt. destruct (ps !! index) as [p|].
  2: { exists []. simpl. by rewrite app_nil_r. }
  destruct (signTransaction_run t p) as (str & Hstr & Hnolog & Hsign).
  unfold bind, emit, ret. rewrite Hsign.
  destruct (signResult t p) as [b|e] eqn:Hres; simpl.
  - exists (str ++ [EvLog ("Signed transaction " +:+ pretty index) b]).
    split; [by rewrite <- app_assoc|]. split; [done|].
    split; [by rewrite forallb_app, Hstr|].
    intros b' [= <-]. split; [rewrite logged_app, Hnolog; reflexivity|]. by exists p.
  - exists str. by repeat split.
Qed.

(** The signing phase of a group: the transaction at each position is
    signed with the ExecParams at the same position, and every signed blob is
    logged. *)
Lemma mapIndexed_sign_run (ps : list ExecParams) (txns : list Transaction) :
  forall (index : nat) (w : World),
    exists tr : list Event,
      trace (mapIndexed (signAt ps) index txns w).1 = trace w ++ tr
      /\ heap (mapIndexed (signAt ps) index txns w).1 = heap w
      /\ forallb signing tr = true
      /\ forall signed,
           (mapIndexed (signAt ps) index txns w).2 = Ok signed ->
           logged tr = signed
           /\ length signed = length txns
           /\ forall j t,
                txns !! j = Some t ->
                exists p b,
                  ps !! (index + j)%nat = Some p
                  /\ signed !! j = Some b
                  /\ signResult t p = Ok b.
Proof.
  induction txns as [|t txns IH]; intros index w.
  - exists []. simpl. rewrite app_nil_r.
    split; [done|]. split; [done|]. split; [done|].
    intros signed [= <-]. by repeat split.
  - rewrite mapIndexed_cons.
    destruct (signAt_run ps t index w) as (str & Hstr & Hheap1 & Hsig1 & Hok1).
    destruct (signAt ps t index w) as [w1 [b|e]]; simpl in *.
    2: { exists str. by repeat split. }
    destruct (Hok1 b eq_refl) as (Hlog1 & p & Hp & Hres).
    destruct (IH (S index) w1) as (tr & Htr & Hheap & Hsig & Hok).
    exists (str ++ tr).
    destruct (mapIndexed (signAt ps) (S index) txns w1) as [w2 [bs|e]]; simpl in *.
    + split; [by rewrite Htr, Hstr, <- app_assoc|]. split; [congruence|].
      split; [by rewrite forallb_app, Hsig1|].
      intros signed [= <-]. destruct (Hok bs eq_refl) as (Hlog & Hlen & Hat).
      split; [by rewrite logged_app, Hlog1, Hlog|].
      split; [simpl; by f_equal|].
      intros [|j] t' Ht'; simpl in *.
      * injection Ht' as <-. exists p, b. by rewrite Nat.add_0_r.
      * destruct (Hat j t' Ht') as (p' & b' & Hp' & Hb' & Hres').
        exists p', b'. by rewrite Nat.add_succ_r.
    + split; [by rewrite Htr, Hstr, <- app_assoc|]. split; [congruence|].
      split; [by rewrite forallb_app, Hsig1|]. done.
Qed.
(** The phase before submission, for a group that passes the size check. *)
Lemma prepare_array_run (deployer : AlgobDeployer) (snapshot : loc)
    (raw : SuggestedParams) (ps : list ExecParams) (w : World) :
  heap w !! snapshot = Some raw ->
  (16 <? length ps)%nat = false ->
  exists tr : list Event,
    trace (prepare deployer snapshot (Array ps) w).1 = trace w ++ tr
    /\ heap w ⊆ heap (prepare deployer snapshot (Array ps) w).1
    /\ forallb preparing tr = true
    /\ Forall (fun b => b.2 = resolve_spec (payFlags b.1.1) raw) (builds tr)
    /\ map (fun b => b.1.1) (builds tr) `prefix_of` ps
    /\ (forall i b e,
          builds tr !! i = Some b ->
          (mkTransaction b.1.1 b.2).2 = Throw e ->
          (prepare deployer snapshot (Array ps) w).2 = Throw e
          /\ length (builds tr) = S i)
    /\ (forall rawTxns,
          (prepare deployer snapshot (Array ps) w).2 = Ok rawTxns ->
          exists built grouped signed,
            rawTxns = RawMany signed
            /\ logged tr = signed
            /\ map (fun b => b.1.1) (builds tr) = ps
            /\ Forall2 (fun p t =>
                 (mkTransaction p (resolve_spec (payFlags p) raw)).2 = Ok t) ps built
            /\ groupings tr = [built]
            /\ assignGroupID built = Ok grouped
            /\ length signed = length grouped
            /\ forall j t,
                 grouped !! j = Some t ->
                 exists p b,
                   ps !! j = Some p /\ signed !! j = Some b /\ signResult t p = Ok b).
Proof.
  intros Hsnap Hlen. unfold prepare. rewrite Hlen.
  destruct (forOf_mkTx_run deployer snapshot raw ps w Hsnap)
    as (tr1 & Htr1 & Hsub1 & _ & Hb1 & Hown1 & Hpre1 & Hok1 & Hfail1).
  destruct (building_preparing tr1 Hb1) as (Hp1 & Hl1 & Hg1).
  unfold bind, callAssignGroupID, emit, liftR, ret.
  destruct (forOf (mkTx deployer snapshot) ps w) as [w1 [built|e1]]; simpl in *.
  2: { exists tr1. split; [done|]. split; [done|]. split; [done|]. split; [done|].
       split; [done|]. split; [|done].
       intros i b e Hb He. by destruct (Hfail1 i b e Hb He) as [[= ->] Hlast]. }
  destruct (Hok1 built eq_refl) as [Hps Hbuilt].
  assert (Hnofail : forall i b e, builds tr1 !! i = Some b ->
            (mkTransaction b.1.1 b.2).2 = Throw e -> False).
  { intros i b e Hb He. by destruct (Hfail1 i b e Hb He). }
  destruct (assignGroupID built) as [grouped|e2] eqn:Hgroup; simpl.
  2: { exists (tr1 ++ [EvAssignGroupID built]).
       rewrite builds_app, forallb_app, Hp1, app_nil_r. simpl.
       split; [by rewrite Htr1, <- app_assoc|]. split; [done|]. split; [done|].
       split; [done|]. split; [done|]. split; [|done].
       intros i b e Hb He. by destruct (Hnofail i b e Hb He). }
  set (w2 := mkWorld (heap w1) (trace w1 ++ [EvAssignGroupID built])).
  destruct (mapIndexed_sign_run ps grouped 0%nat w2)
    as (tr3 & Htr3 & Hheap3 & Hs3 & Hok3).
  destruct (signing_preparing tr3 Hs3) as (Hp3 & Hb3 & Hg3).
  exists (tr1 ++ EvAssignGroupID built :: tr3).
  rewrite builds_app, forallb_app, Hp1. simpl. rewrite Hb3, Hp3, app_nil_r.
  destruct (mapIndexed (signAt ps) 0%nat grouped w2) as [w3 [signed|e3]]; simpl in *.
  - split; [by rewrite Htr3, Htr1, <- !app_assoc|]. split; [by rewrite Hheap3|].
    split; [done|]. split; [done|]. split; [done|]. split.
    { intros i b e Hb He. by destruct (Hnofail i b e Hb He). }
    intros rawTxns [= <-]. destruct (Hok3 signed eq_refl) as (Hlog & Hlen3 & Hat).
    exists built, grouped, signed. split; [done|].
    split; [by rewrite logged_app, Hl1; simpl|].
    split; [done|]. split; [done|].
    split; [by rewrite groupings_app, Hg1; simpl; rewrite Hg3|].
    split; [done|]. split; [done|]. exact Hat.
  - split; [by rewrite Htr3, Htr1, <- !app_assoc|]. split; [by rewrite Hheap3|].
    split; [done|]. split; [done|]. split; [done|]. split; [|done].
    intros i b e Hb He. by destruct (Hnofail i b e Hb He).
Qed.

(** The phase before submission, in every case. *)
Lemma prepare_run (deployer : AlgobDeployer) (snapshot : loc)
    (raw : SuggestedParams) (execParams : ExecParamsArg) (w : World) :
  heap w !! snapshot = Some raw ->
  exists tr : list Event,
    trace (prepare deployer snapshot execParams w).1 = trace w ++ tr
    /\ heap w ⊆ heap (prepare deployer snapshot execParams w).1
    /\ forallb preparing tr = true
    /\ Forall (fun b => b.2 = resolve_spec (payFlags b.1.1) raw) (builds tr)
    /\ map (fun b => b.1.1) (builds tr) `prefix_of` params_of execParams
    /\ (forall i b e,
          builds tr !! i = Some b ->
          (mkTransaction b.1.1 b.2).2 = Throw e ->
          (prepare deployer snapshot execParams w).2 = Throw e
          /\ length (builds tr) = S i)
    /\ (forall rawTxns,
          (prepare deployer snapshot execParams w).2 = Ok rawTxns ->
          logged tr = blobs rawTxns
          /\ map (fun b => b.1.1) (builds tr) = params_of execParams).
Proof.
  intros Hsnap. destruct execParams as [p|ps].
  - unfold prepare, bind. rewrite (mkTx_run _ _ _ raw) by done.
    pose proof (is_fresh (dom (heap w))) as Hfresh.
    assert (Hnone : heap w !! fresh (dom (heap w)) = None)
      by by apply not_elem_of_dom.
    destruct (mkTransaction p (resolve_spec (payFlags p) raw)) as [o' [t|e]] eqn:Hbuild;
      simpl.
    2: { exists [EvMkTransaction p (fresh (dom (heap w))) (resolve_spec (payFlags p) raw)].
         split; [done|]. split; [by apply insert_subseteq|]. split; [done|].
         split; [by repeat constructor|]. split; [done|]. split; [|done].
         intros [|i] b e' Hb He; simpl in *; [|done].
         injection Hb as <-. simpl in He. rewrite Hbuild in He. simpl in He.
         by injection He as <-. }
    destruct (signTransaction_run t p) as (str & Hstr & Hnolog & Hsign).
    destruct (signing_preparing str Hstr) as (Hpstr & Hbstr & _).
    rewrite Hsign. unfold emit, ret.
    destruct (signResult t p) as [signed|e]; simpl.
    + exists (EvMkTransaction p (fresh (dom (heap w))) (resolve_spec (payFlags p) raw)
              :: str ++ [EvLog "Signed transaction:" signed]).
      split; [by rewrite <- !app_assoc|]. split; [by apply insert_subseteq|].
      split; [simpl; by rewrite forallb_app, Hpstr|].
      unfold builds. simpl. rewrite omap_app. fold (builds str). rewrite Hbstr. simpl.
      split; [by repeat constructor|]. split; [done|]. split.
      { intros [|i] b e' Hb He; simpl in *; [|done].
        injection Hb as <-. simpl in He. by rewrite Hbuild in He. }
      intros rawTxns [= <-]. split; [|done].
      unfold logged. simpl. rewrite omap_app. fold (logged str). by rewrite Hnolog.
    + exists (EvMkTransaction p (fresh (dom (heap w))) (resolve_spec (payFlags p) raw)
              :: str).
      split; [by rewrite <- !app_assoc|]. split; [by apply insert_subseteq|].
      split; [done|].
      change (builds (EvMkTransaction p (fresh (dom (heap w)))
                        (resolve_spec (payFlags p) raw) :: str))
        with ((p, fresh (dom (heap w)), resolve_spec (payFlags p) raw) :: builds str).
      rewrite Hbstr.
      split; [by repeat constructor|]. split; [done|]. split; [|done].
      intros [|i] b e' Hb He; simpl in *; [|done].
      injection Hb as <-. simpl in He. by rewrite Hbuild in He.
  - destruct (16 <? length ps)%nat eqn:Hlen.
    + exists []. unfold prepare. rewrite Hlen. simpl. rewrite app_nil_r.
      split; [done|]. split; [done|]. split; [done|]. split; [done|].
      split; [apply prefix_nil|]. done.
    + destruct (prepare_array_run deployer snapshot raw ps w Hsnap Hlen)
        as (tr & Htr & Hsub & Hp & Hown & Hpre & Hfail & Hok).
      exists tr. split; [done|]. split; [done|]. split; [done|]. split; [done|].
      split; [done|]. split; [exact Hfail|].
      intros rawTxns Hraw.
      destruct (Hok rawTxns Hraw) as (built & grouped & signed & -> & Hlog & Hps & _).
      by split.
Qed.

(** The phase after it: one submission, then the wait for its confirmation,
    then the result is printed. *)
Lemma submit_run (deployer : AlgobDeployer) (rawTxns : RawTxns) (w : World) :
  exists tail : list Event,
    trace (bind (sendAndWait deployer rawTxns)
             (fun confirmedTx =>
                bind (emit (EvConsoleLog confirmedTx)) (fun _ => ret confirmedTx)) w).1
    = trace w ++ EvSendRawTransaction rawTxns :: tail
    /\ heap (bind (sendAndWait deployer rawTxns)
               (fun confirmedTx =>
                  bind (emit (EvConsoleLog confirmedTx)) (fun _ => ret confirmedTx)) w).1
       = heap w
    /\ match (bind (sendAndWait deployer rawTxns)
                (fun confirmedTx =>
                   bind (emit (EvConsoleLog confirmedTx)) (fun _ => ret confirmedTx)) w).2
       with
       | Throw e =>
           (tail = [] /\ sendRawTransaction (algodClient deployer) (trace w) rawTxns
                         = Throw e)
           \/ exists txId,
                tail = [EvWaitForConfirmation txId]
                /\ sendRawTransaction (algodClient deployer) (trace w) rawTxns = Ok txId
                /\ waitForConfirmation deployer
                     (trace w ++ [EvSendRawTransaction rawTxns]) txId = Throw e
       | Ok info =>
           exists txId,
             tail = [EvWaitForConfirmation txId; EvConsoleLog info]
             /\ sendRawTransaction (algodClient deployer) (trace w) rawTxns = Ok txId
             /\ waitForConfirmation deployer
                  (trace w ++ [EvSendRawTransaction rawTxns]) txId = Ok info
       end.
Proof.
  unfold sendAndWait, callSendRawTransaction, callWaitForConfirmation, bind, emit, ret.
  destruct (sendRawTransaction (algodClient deployer) (trace w) rawTxns) as [txId|e];
    simpl.
  2: { exists []. split; [done|]. split; [done|]. by left. }
  destruct (waitForConfirmation deployer (trace w ++ [EvSendRawTransaction rawTxns]) txId)
    as [info|e] eqn:Hwait; simpl.
  - eexists. split; [by rewrite <- !app_assoc|]. split; [done|]. by exists txId.
  - eexists. split; [by rewrite <- !app_assoc|]. split; [done|]. right. by exists txId.
Qed.
End Phases.

(** ** More on submission: whole calls *)

Section WholeCalls.
Context `{sdk : AlgoSdk} {rt : Runtime} {op : AlgoOperator}.

Lemma bind_run {A B : Type} (m : M A) (f : A -> M B) (w : World) :
  bind m f w =
    match m w with
    | (w', Ok a) => f a w'
    | (w', Throw e) => (w', Throw e)
    end.
Proof. reflexivity. Qed.

Lemma executeTransaction_phases (deployer : AlgobDeployer)
    (execParams : ExecParamsArg) (w : World) :
  match getTransactionParams (algodClient deployer) (trace w) with
  | Throw e =>
      executeTransaction deployer execParams w
      = (mkWorld (heap w) (trace w ++ [EvGetTransactionParams]), Throw e)
  | Ok raw =>
      let w2 := mkWorld (<[fresh (dom (heap w)) := raw]> (heap w))
                  (trace w ++ [EvGetTransactionParams]) in
      if firstRound raw =? 0
      then executeTransaction deployer execParams w = (w2, Throw StaleNetworkError)
      else
        match (prepare deployer (fresh (dom (heap w))) execParams w2).2 with
        | Throw e =>
            executeTransaction deployer execParams w
            = ((prepare deployer (fresh (dom (heap w))) execParams w2).1, Throw e)
        | Ok rawTxns =>
            executeTransaction deployer execParams w
            = bind (sendAndWait deployer rawTxns)
                (fun confirmedTx =>
                   bind (emit (EvConsoleLog confirmedTx)) (fun _ => ret confirmedTx))
                (prepare deployer (fresh (dom (heap w))) execParams w2).1
        end
  end.
Proof.
  rewrite executeTransaction_prepare.
  pose proof (getSuggestedParams_run (algodClient deployer) w) as Hget.
  destruct (getTransactionParams (algodClient deployer) (trace w)) as [raw|e].
  - simpl. destruct (firstRound raw =? 0).
    + by rewrite (bind_throw _ _ _ _ _ Hget).
    + rewrite (bind_ok _ _ _ _ _ Hget).
      rewrite (bind_run (prepare deployer (fresh (dom (heap w))) execParams)).
      by destruct (prepare _ _ _ _) as [w3 [rawTxns|e]].
  - by rewrite (bind_throw _ _ _ _ _ Hget).
Qed.

(** Everything the phases say about a call, in one place. *)
Lemma executeTransaction_summary (deployer : AlgobDeployer)
    (execParams : ExecParamsArg) (w : World) :
  exists prep tail : list Event,
    trace (executeTransaction deployer execParams w).1
    = trace w ++ EvGetTransactionParams :: prep ++ tail
    /\ heap w ⊆ heap (executeTransaction deployer execParams w).1
    /\ forallb preparing prep = true
    /\ builds tail = []
    /\ Forall (fun b => exists raw,
                 getTransactionParams (algodClient deployer) (trace w) = Ok raw
                 /\ firstRound raw <> 0
                 /\ b.2 = resolve_spec (payFlags b.1.1) raw) (builds prep)
    /\ map (fun b => b.1.1) (builds prep) `prefix_of` params_of execParams
    /\ (forall i b e,
          builds prep !! i = Some b ->
          (mkTransaction b.1.1 b.2).2 = Throw e ->
          (executeTransaction deployer execParams w).2 = Throw e
          /\ length (builds prep) = S i
          /\ tail = [])
    /\ ((tail = [] /\ exists e, (executeTransaction deployer execParams w).2 = Throw e)
        \/ exists rawTxns rest,
             tail = EvSendRawTransaction rawTxns :: rest
             /\ blobs rawTxns = logged prep
             /\ map (fun b => b.1.1) (builds prep) = params_of execParams
             /\ ((rest = []
                  /\ exists e, (executeTransaction deployer execParams w).2 = Throw e)
                 \/ (exists txId,
                       rest = [EvWaitForConfirmation txId]
                       /\ exists e,
                            (executeTransaction deployer execParams w).2 = Throw e)
                 \/ (exists txId info,
                       rest = [EvWaitForConfirmation txId; EvConsoleLog info]
                       /\ (executeTransaction deployer execParams w).2 = Ok info
                       /\ sendRawTransaction (algodClient deployer)
                            (trace w ++ EvGetTransactionParams :: prep) rawTxns
                          = Ok txId
                       /\ waitForConfirmation deployer
                            (trace w ++ EvGetTransactionParams :: prep
                               ++ [EvSendRawTransaction rawTxns]) txId
                          = Ok info))).
Proof.
  pose proof (executeTransaction_phases deployer execParams w) as Hrun.
  destruct (getTransactionParams (algodClient deployer) (trace w)) as [raw|e].
  2: { rewrite Hrun. exists [], []. simpl.
       split; [done|]. split; [done|]. split; [done|]. split; [done|].
       split; [done|]. split; [apply prefix_nil|]. split; [done|].
       left. split; [done|]. by exists e. }
  simpl in Hrun.
  pose proof (is_fresh (dom (heap w))) as Hfresh.
  assert (Hnone : heap w !! fresh (dom (heap w)) = None)
    by by apply not_elem_of_dom.
  destruct (firstRound raw =? 0) eqn:Hzero.
  { rewrite Hrun. exists [], []. simpl.
    split; [done|]. split; [by apply insert_subseteq|]. split; [done|].
    split; [done|]. split; [done|]. split; [apply prefix_nil|]. split; [done|].
    left. split; [done|]. by eexists. }
  apply Z.eqb_neq in Hzero.
  set (w2 := mkWorld (<[fresh (dom (heap w)) := raw]> (heap w))
               (trace w ++ [EvGetTransactionParams])) in *.
  destruct (prepare_run deployer (fresh (dom (heap w))) raw execParams w2)
    as (prep & Htr & Hsub & Hp & Hown & Hpre & Hfail & Hok).
  { apply lookup_insert_eq. }
  assert (Hsub2 : heap w ⊆ heap (prepare deployer (fresh (dom (heap w))) execParams w2).1).
  { etrans; [|exact Hsub]. by apply insert_subseteq. }
  assert (Hown' : Forall (fun b => exists raw0,
                    Ok raw = Ok raw0 /\ firstRound raw0 <> 0
                    /\ b.2 = resolve_spec (payFlags b.1.1) raw0) (builds prep)).
  { eapply Forall_impl; [exact Hown|]. intros b Hb. by exists raw. }
  destruct (prepare deployer (fresh (dom (heap w))) execParams w2) as [w3 [rawTxns|e]];
    simpl in *.
  2: { rewrite Hrun. exists prep, []. simpl. rewrite app_nil_r.
       split; [by rewrite Htr, <- app_assoc|]. split; [done|]. split; [done|].
       split; [done|]. split; [done|]. split; [done|]. split.
       - intros i b e' Hb He. destruct (Hfail i b e' Hb He) as [[= ->] Hlen]. done.
       - left. split; [done|]. by exists e. }
  destruct (Hok rawTxns eq_refl) as [Hlog Hall].
  destruct (submit_run deployer rawTxns w3) as (rest & Htail & Hheap & Hres).
  rewrite Hrun. exists prep, (EvSendRawTransaction rawTxns :: rest).
  assert (Htr3 : trace w3 = trace w ++ EvGetTransactionParams :: prep)
    by by rewrite Htr, <- app_assoc.
  split; [by rewrite Htail, Htr3, <- app_assoc|].
  split; [by rewrite Hheap|]. split; [done|].
  assert (Hrest : builds (EvSendRawTransaction rawTxns :: rest) = []
                  /\ ((rest = [] /\ exists e,
                         (bind (sendAndWait deployer rawTxns)
                            (fun confirmedTx =>
                               bind (emit (EvConsoleLog confirmedTx))
                                 (fun _ => ret confirmedTx)) w3).2 = Throw e)
                      \/ (exists txId,
                            rest = [EvWaitForConfirmation txId]
                            /\ exists e,
                                 (bind (sendAndWait deployer rawTxns)
                                    (fun confirmedTx =>
                                       bind (emit (EvConsoleLog confirmedTx))
                                         (fun _ => ret confirmedTx)) w3).2 = Throw e)
                      \/ (exists txId info,
                            rest = [EvWaitForConfirmation txId; EvConsoleLog info]
                            /\ (bind (sendAndWait deployer rawTxns)
                                  (fun confirmedTx =>
                                     bind (emit (EvConsoleLog confirmedTx))
                                       (fun _ => ret confirmedTx)) w3).2 = Ok info
                            /\ sendRawTransaction (algodClient deployer)
                                 (trace w ++ EvGetTransactionParams :: prep) rawTxns
                               = Ok txId
                            /\ waitForConfirmation deployer
                                 (trace w ++ EvGetTransactionParams :: prep
                                    ++ [EvSendRawTransaction rawTxns]) txId
                               = Ok info))).
  { rewrite Htr3 in Hres.
    destruct ((bind (sendAndWait deployer rawTxns) _ w3).2) as [info|e].
    - destruct Hres as (txId & -> & Hsend & Hwait). split; [done|].
      right. right. exists txId, info. split; [done|]. split; [done|].
      split; [done|]. by rewrite <- app_assoc in Hwait.
    - destruct Hres as [[-> Hsend] | (txId & -> & Hsend & Hwait)].
      + split; [done|]. left. split; [done|]. by exists e.
      + split; [done|]. right. left. exists txId. split; [done|]. by exists e. }
  destruct Hrest as [Hnobuild Hrest].
  split; [done|]. split; [done|]. split; [done|]. split.
  - intros i b e' Hb He. by destruct (Hfail i b e' Hb He).
  - right. exists rawTxns, rest. by repeat split.
Qed.
(** X5: [executeTransaction] never writes to a params object that existed
    before the call: whatever the outcome, each of them holds afterwards
    what it held before (the call works on objects it creates itself). *)
Theorem executeTransaction_frame (deployer : AlgobDeployer)
    (execParams : ExecParamsArg) (w : World) :
  heap w ⊆ heap (executeTransaction deployer execParams w).1.
Proof.
  by destruct (executeTransaction_summary deployer execParams w)
    as (prep & tail & _ & Hsub & _).
Qed.


(** X7: the builder is called on the ExecParams of a call in their order
    and on nothing else; a call that returns a result has built all of them.
    When the builder rejects one, the call fails with the builder's error,
    no later ExecParams is built and nothing is submitted. *)
Theorem executeTransaction_builds_in_order (deployer : AlgobDeployer)
    (execParams : ExecParamsArg) (w : World) :
  exists tr : list Event,
    trace (executeTransaction deployer execParams w).1 = trace w ++ tr
    /\ map (fun b => b.1.1) (builds tr) `prefix_of` params_of execParams
    /\ (forall info,
          (executeTransaction deployer execParams w).2 = Ok info ->
          map (fun b => b.1.1) (builds tr) = params_of execParams)
    /\ (forall i b e,
          builds tr !! i = Some b ->
          (mkTransaction b.1.1 b.2).2 = Throw e ->
          (executeTransaction deployer execParams w).2 = Throw e
          /\ length (builds tr) = S i
          /\ sends tr = []).
Proof.
  destruct (executeTransaction_summary deployer execParams w)
    as (prep & tail & Htr & _ & Hp & Hnobuild & _ & Hpre & Hfail & Hcases).
  exists (EvGetTransactionParams :: prep ++ tail).
  assert (Hbuilds : builds (EvGetTransactionParams :: prep ++ tail) = builds prep).
  { change (builds (EvGetTransactionParams :: prep ++ tail))
      with (builds (prep ++ tail)).
    by rewrite builds_app, Hnobuild, app_nil_r. }
  rewrite Hbuilds. split; [done|]. split; [done|]. split.
  - intros info Hinfo.
    destruct Hcases as [[_ [e He]] | (rawTxns & rest & _ & _ & Hall & _)]; [|done].
    by rewrite Hinfo in He.
  - intros i b e Hb He. destruct (Hfail i b e Hb He) as (Hres & Hlen & ->).
    split; [done|]. split; [done|]. rewrite app_nil_r.
    change (sends (EvGetTransactionParams :: prep)) with (sends prep).
    by apply preparing_sends.
Qed.

(** X8: no transaction is built for first round 0 unless its own
    [payFlags] ask for it: in every call, each time the builder is handed
    params whose [firstRound] is 0, the transaction's [firstValid] is 0. *)
Theorem executeTransaction_first_round (deployer : AlgobDeployer)
    (execParams : ExecParamsArg) (w : World) :
  exists tr : list Event,
    trace (executeTransaction deployer execParams w).1 = trace w ++ tr
    /\ Forall (fun b => firstRound b.2 = 0 -> firstValid (payFlags b.1.1) = Some 0)
         (builds tr).
Proof.
  destruct (executeTransaction_summary deployer execParams w)
    as (prep & tail & Htr & _ & _ & Hnobuild & Hown & _).
  exists (EvGetTransactionParams :: prep ++ tail). split; [done|].
  change (builds (EvGetTransactionParams :: prep ++ tail))
    with (builds (prep ++ tail)).
  rewrite builds_app, Hnobuild, app_nil_r.
  eapply Forall_impl; [exact Hown|].
  intros b (raw & _ & Hlive & ->). simpl.
  destruct (firstValid (payFlags b.1.1)) as [fv|]; simpl; [by intros ->|done].
Qed.

(** X9: a group that succeeds. When [executeTransaction] on a list returns
    a result, the list has at most 16 entries; every entry was built, in
    order, from the one answer of the node; [assignGroupID] was called once,
    on all the built transactions; the transaction it returned at each
    position was signed with the ExecParams at the same position; and the
    blobs went to the node in one [sendRawTransaction], as an array in that
    order. *)
Theorem executeTransaction_group_success (deployer : AlgobDeployer)
    (ps : list ExecParams) (w : World) (info : ConfirmedTxInfo) :
  (executeTransaction deployer (Array ps) w).2 = Ok info ->
  exists (raw : SuggestedParams) (built grouped : list Transaction)
         (signed : list Blob) (txId : string) (prep : list Event),
    getTransactionParams (algodClient deployer) (trace w) = Ok raw
    /\ (length ps <= 16)%nat
    /\ trace (executeTransaction deployer (Array ps) w).1
       = trace w ++ EvGetTransactionParams :: prep
           ++ [EvSendRawTransaction (RawMany signed);
               EvWaitForConfirmation txId; EvConsoleLog info]
    /\ Forall2 (fun p t =>
         (mkTransaction p (resolve_spec (payFlags p) raw)).2 = Ok t) ps built
    /\ groupings prep = [built]
    /\ assignGroupID built = Ok grouped
    /\ logged prep = signed
    /\ sends prep = []
    /\ length signed = length grouped
    /\ forall j t,
         grouped !! j = Some t ->
         exists p b, ps !! j = Some p /\ signed !! j = Some b /\ signResult t p = Ok b.
Proof.
  intros Hinfo.
  pose proof (executeTransaction_phases deployer (Array ps) w) as Hrun.
  destruct (getTransactionParams (algodClient deployer) (trace w)) as [raw|e].
  2: { by rewrite Hrun in Hinfo. }
  cbv zeta in Hrun. destruct (firstRound raw =? 0); [by rewrite Hrun in Hinfo|].
  set (w2 := mkWorld (<[fresh (dom (heap w)) := raw]> (heap w))
               (trace w ++ [EvGetTransactionParams])) in *.
  destruct (16 <? length ps)%nat eqn:Hlen.
  { unfold prepare in Hrun. rewrite Hlen in Hrun. unfold throw in Hrun.
    cbn [fst snd] in Hrun. by rewrite Hrun in Hinfo. }
  destruct (prepare_array_run deployer (fresh (dom (heap w))) raw ps w2)
    as (prep & Htr & _ & Hp & _ & _ & _ & Hok); [apply lookup_insert_eq | done |].
  destruct (prepare deployer (fresh (dom (heap w))) (Array ps) w2)
    as [w3 [rawTxns|e]]; simpl in *; [|by rewrite Hrun in Hinfo].
  destruct (Hok rawTxns eq_refl)
    as (built & grouped & signed & -> & Hlog & _ & Hbuilt & Hgroup & Hassign & Hlen3 & Hat).
  destruct (submit_run deployer (RawMany signed) w3) as (rest & Htail & _ & Hres).
  rewrite <- Hrun in Htail, Hres. rewrite Hinfo in Hres.
  destruct Hres as (txId & -> & _).
  exists raw, built, grouped, signed, txId, prep.
  split; [done|]. split; [by apply Nat.ltb_ge|].
  split; [rewrite Htail, Htr; subst w2; simpl; by rewrite <- !app_assoc|].
  split; [done|]. split; [done|]. split; [done|]. split; [done|].
  split; [by apply preparing_sends|]. by split.
Qed.

(** X10: [executeTransaction] has no check of its own for the empty list.
    When the node answers with live params, the call builds nothing and
    hands the empty list to [assignGroupID], whose outcome decides: when it
    throws, the call fails with that error and nothing is signed or sent;
    were it to return the empty list, an empty array would be sent. *)
Theorem executeTransaction_empty_group (deployer : AlgobDeployer) (w : World)
    (raw : SuggestedParams) :
  getTransactionParams (algodClient deployer) (trace w) = Ok raw ->
  firstRound raw <> 0 ->
  exists tail : list Event,
    trace (executeTransaction deployer (Array []) w).1
    = trace w ++ EvGetTransactionParams :: EvAssignGroupID [] :: tail
    /\ builds tail = []
    /\ match assignGroupID [] with
       | Throw e =>
           tail = [] /\ (executeTransaction deployer (Array []) w).2 = Throw e
       | Ok [] => exists rest, tail = EvSendRawTransaction (RawMany []) :: rest
       | Ok (_ :: _) =>
           tail = [] /\ (executeTransaction deployer (Array []) w).2 = Throw TypeError
       end.
Proof.
  intros Hnode Hlive%Z.eqb_neq.
  pose proof (executeTransaction_phases deployer (Array []) w) as Hrun.
  rewrite Hnode in Hrun. cbv zeta in Hrun. rewrite Hlive in Hrun.
  set (w2 := mkWorld (<[fresh (dom (heap w)) := raw]> (heap w))
               (trace w ++ [EvGetTransactionParams])) in *.
  set (w3 := mkWorld (heap w2) (trace w2 ++ [EvAssignGroupID []])).
  assert (Hprep : prepare deployer (fresh (dom (heap w))) (Array []) w2 =
            match assignGroupID [] with
            | Ok [] => (w3, Ok (RawMany []))
            | Ok (_ :: _) => (w3, Throw TypeError)
            | Throw e => (w3, Throw e)
            end).
  { unfold prepare. simpl. unfold bind, callAssignGroupID, bind, emit, liftR, ret.
    simpl. by destruct (assignGroupID []) as [[|t grouped]|e]. }
  rewrite Hprep in Hrun.
  destruct (assignGroupID []) as [[|t grouped]|e]; cbn [fst snd] in Hrun.
  - destruct (submit_run deployer (RawMany []) w3) as (rest & Htail & _ & Hres).
    rewrite <- Hrun in Htail, Hres. simpl in Htail.
    exists (EvSendRawTransaction (RawMany []) :: rest).
    split; [by rewrite Htail, <- !app_assoc|]. split; [|by exists rest].
    destruct ((executeTransaction deployer (Array []) w).2) as [info|e].
    + by destruct Hres as (txId & -> & _).
    + by destruct Hres as [[-> _] | (txId & -> & _)].
  - rewrite Hrun. exists []. simpl. split; [by rewrite <- app_assoc|]. by split.
  - rewrite Hrun. exists []. simpl. split; [by rewrite <- app_assoc|]. by split.
Qed.
End WholeCalls.

(** ** The replay of a signed file *)

Section Replay.
Context `{sdk : AlgoSdk} {replay : AlgoSdkReplay} {fs : Files}.

End Replay.

(** ** The further properties on concrete inputs *)

Module CoverageExamples.
Import Fixtures ReplayFixtures.

(** A live node: the object returned holds its answer. *)
Lemma getSuggestedParams_fresh_live_witness :
  exists raw : SuggestedParams,
    getTransactionParams (node liveParams) (trace emptyWorld) = Ok raw
    /\ firstRound raw = 500.
Proof.
  destruct (getSuggestedParams_fresh_live (sdk:=toySdk) (node liveParams) emptyWorld
              (getSuggestedParams (node liveParams) emptyWorld).1
              (fresh (dom (heap emptyWorld))))
    as (raw & Hnode & _).
  - by rewrite getSuggestedParams_run.
  - exists raw. split; [exact Hnode|]. by injection Hnode as <-.
Defined.

(** Resolving twice with the same flat fee. *)
Lemma mkTxParams_idempotent_witness :
  exists w1 : World,
    mkTxParams (sdk:=toySdk) (op:=toyOperator) (node liveParams) flatFee5000
      (Some 1%positive) (worldWith liveParams) = (w1, Ok 1%positive)
    /\ mkTxParams (sdk:=toySdk) (op:=toyOperator) (node liveParams) flatFee5000
         (Some 1%positive) w1 = (w1, Ok 1%positive).
Proof.
  apply (mkTxParams_idempotent (sdk:=toySdk) (op:=toyOperator) (node liveParams)
           flatFee5000 1%positive liveParams (worldWith liveParams)).
  apply lookup_singleton_eq.
Defined.

(** One object used for two transactions: the first round asked for by the
    first, 7, is still there after the second, which asked for none. *)
Lemma mkTxParams_reuse_witness :
  exists (w1 w2 : World) (r : SuggestedParams),
    mkTxParams (sdk:=toySdk) (op:=toyOperator) (node liveParams) firstValid7
      (Some 1%positive) (worldWith liveParams) = (w1, Ok 1%positive)
    /\ mkTxParams (sdk:=toySdk) (op:=toyOperator) (node liveParams) perByte3
         (Some 1%positive) w1 = (w2, Ok 1%positive)
    /\ heap w2 !! (1%positive : loc) = Some r
    /\ fee r = 3
    /\ firstRound r = 7.
Proof.
  destruct (mkTxParams_reuse (sdk:=toySdk) (op:=toyOperator) (node liveParams)
              firstValid7 perByte3 1%positive liveParams (worldWith liveParams))
    as (w1 & w2 & r & H1 & H2 & Hr & _ & Hfee & Hfirst & _).
  - apply lookup_singleton_eq.
  - exists w1, w2, r. split; [exact H1|]. split; [exact H2|]. split; [exact Hr|].
    split; [exact Hfee | exact Hfirst].
Defined.

(** A per-byte fee of 3 stays 3, below the minimum of 1000. *)
Lemma mkTxParams_fee_floor_witness :
  exists (w' : World) (l : loc) (r : SuggestedParams),
    mkTxParams (sdk:=toySdk) (op:=toyOperator) (node liveParams) perByte3
      (Some 1%positive) (worldWith liveParams) = (w', Ok l)
    /\ heap w' !! l = Some r
    /\ (fee r < 1000 -> feePerByte perByte3 = Some (fee r)).
Proof.
  destruct (mkTxParams_fee_floor (sdk:=toySdk) (op:=toyOperator) (node liveParams)
              perByte3 (Some 1%positive) liveParams (worldWith liveParams))
    as (w' & l & r & Hrun & Hl & Hfloor).
  - apply accepts_supplied. apply lookup_singleton_eq.
  - exists w', l, r. split; [exact Hrun|]. split; [exact Hl|].
    intros Hlow. by destruct (Hfloor Hlow) as (_ & Hper & _).
Defined.

(** A mixed group of two that is confirmed. *)
Lemma executeTransaction_group_success_witness :
  exists (signed : list Blob) (prep : list (@Event toySdk)),
    logged prep = signed /\ length signed = 2%nat /\ sends prep = [].
Proof.
  destruct (executeTransaction_group_success (sdk:=toySdk) (rt:=toyRuntime)
              (op:=toyOperator) (deployerOn liveParams) [payment; contractPayment]
              emptyWorld (mkConfirmedTxInfo 501))
    as (raw & built & grouped & signed & txId & prep & _ & _ & _ & Hbuilt & _
        & Hassign & Hlog & Hsends & Hlen & _).
  - vm_compute. reflexivity.
  - exists signed, prep. split; [exact Hlog|]. split; [|exact Hsends].
    rewrite Hlen. injection Hassign as <-. rewrite length_map.
    symmetry. exact (Forall2_length _ _ _ Hbuilt).
Defined.

(** The empty list with an SDK that refuses it: the call fails with the
    SDK's error after the request and the attempt to group. *)
Lemma executeTransaction_empty_group_witness :
  (executeTransaction (sdk:=strictSdk) (rt:=strictRuntime) (op:=toyOperator)
     strictDeployer (Array []) strictWorld).2
  = Throw (Error "empty transaction list")
  /\ trace (executeTransaction (sdk:=strictSdk) (rt:=strictRuntime) (op:=toyOperator)
              strictDeployer (Array []) strictWorld).1
     = [EvGetTransactionParams; EvAssignGroupID []].
Proof.
  destruct (executeTransaction_empty_group (sdk:=strictSdk) (rt:=strictRuntime)
              (op:=toyOperator) strictDeployer strictWorld liveParams)
    as (tail & Htr & _ & Hcase).
  - reflexivity.
  - discriminate.
  - simpl in Hcase. destruct Hcase as [Htail Hres].
    split; [exact Hres|]. rewrite Htr, Htail. reflexivity.
Defined.

(** The file "payment.tx" is sent as it is; "missing.tx" is not there. *)
Example executeSignedTxnFromFile_examples :
  trace (executeSignedTxnFromFile (sdk:=toySdk) (replay:=toyReplay) (fs:=toyFiles)
           (deployerOn liveParams) "payment.tx" emptyWorld).1
  = [EvSendRawTransaction (RawOne [Byte.x01; Byte.x07]);
     EvWaitForConfirmation "TXID";
     EvConsoleLog (mkConfirmedTxInfo 501)]
  /\ executeSignedTxnFromFile (sdk:=toySdk) (replay:=toyReplay) (fs:=toyFiles)
       (deployerOn liveParams) "missing.tx" emptyWorld
     = (emptyWorld, Throw (Error "File missing.tx does not exist")).
Proof. split; reflexivity. Qed.
End CoverageExamples.

(** ** Every transaction of a call is built *)

Section BuildsComplete.
Context `{sdk : AlgoSdk} {rt : Runtime} {op : AlgoOperator}.

(** The building loop stops early only at an ExecParams the builder
    rejects. *)
Lemma forOf_mkTx_stops (deployer : AlgobDeployer) (snapshot : loc)
    (raw : SuggestedParams) (ps : list ExecParams) :
  forall w : World,
    heap w !! snapshot = Some raw ->
    exists tr : list Event,
      trace (forOf (mkTx deployer snapshot) ps w).1 = trace w ++ tr
      /\ forall e,
           (forOf (mkTx deployer snapshot) ps w).2 = Throw e ->
           exists i b,
             builds tr !! i = Some b
             /\ length (builds tr) = S i
             /\ (mkTransaction b.1.1 b.2).2 = Throw e.
Proof.
  induction ps as [|p ps IH]; intros w Hsnap.
  - exists []. simpl. by rewrite app_nil_r.
  - rewrite forOf_cons, (mkTx_run _ _ _ raw) by done.
    pose proof (is_fresh (dom (heap w))) as Hfresh.
    assert (Hne : fresh (dom (heap w)) <> snapshot).
    { intros Heq. apply Hfresh. rewrite Heq. apply elem_of_dom. by eexists. }
    destruct (mkTransaction p (resolve_spec (payFlags p) raw)) as [o' [t|e]] eqn:Hbuild;
      simpl.
    + set (w1 := mkWorld (<[fresh (dom (heap w)) := o']> (heap w))
                   (trace w ++ [EvMkTransaction p (fresh (dom (heap w)))
                                  (resolve_spec (payFlags p) raw)])).
      destruct (IH w1) as (tr & Htr & Hstop).
      { simpl. by rewrite lookup_insert_ne. }
      exists (EvMkTransaction p (fresh (dom (heap w))) (resolve_spec (payFlags p) raw) :: tr).
      destruct (forOf (mkTx deployer snapshot) ps w1) as [w2 [bs|e]]; simpl in *.
      * split; [by rewrite Htr, <- app_assoc|]. done.
      * split; [by rewrite Htr, <- app_assoc|].
        intros e' [= <-]. destruct (Hstop e eq_refl) as (i & b & Hb & Hlen & He).
        exists (S i), b. simpl. by rewrite Hlen.
    + exists [EvMkTransaction p (fresh (dom (heap w))) (resolve_spec (payFlags p) raw)].
      split; [done|]. intros e' [= <-].
      exists 0%nat, (p, fresh (dom (heap w)), resolve_spec (payFlags p) raw).
      simpl. by rewrite Hbuild.
Qed.

(** The phase before submission builds every ExecParams of the call, unless
    the builder rejects one. *)
Lemma prepare_builds_complete (deployer : AlgobDeployer) (snapshot : loc)
    (raw : SuggestedParams) (execParams : ExecParamsArg) (w : World) :
  heap w !! snapshot = Some raw ->
  tooLarge execParams = false ->
  exists tr : list Event,
    trace (prepare deployer snapshot execParams w).1 = trace w ++ tr
    /\ (map (fun b => b.1.1) (builds tr) = params_of execParams
        \/ exists i b e,
             builds tr !! i = Some b
             /\ length (builds tr) = S i
             /\ (mkTransaction b.1.1 b.2).2 = Throw e
             /\ (prepare deployer snapshot execParams w).2 = Throw e).
Proof.
  intros Hsnap Hfits. destruct execParams as [p|ps]; simpl in Hfits.
  - unfold prepare, bind. rewrite (mkTx_run _ _ _ raw) by done.
    destruct (mkTransaction p (resolve_spec (payFlags p) raw)) as [o' [t|e]] eqn:Hbuild;
      simpl.
    2: { exists [EvMkTransaction p (fresh (dom (heap w))) (resolve_spec (payFlags p) raw)].
         split; [done|]. right.
         exists 0%nat, (p, fresh (dom (heap w)), resolve_spec (payFlags p) raw), e.
         simpl. by rewrite Hbuild. }
    destruct (signTransaction_run t p) as (str & Hstr & _ & Hsign).
    destruct (signing_preparing str Hstr) as (_ & Hbstr & _).
    rewrite Hsign. unfold emit, ret.
    destruct (signResult t p) as [signed|e]; simpl.
    + exists (EvMkTransaction p (fresh (dom (heap w))) (resolve_spec (payFlags p) raw)
              :: str ++ [EvLog "Signed transaction:" signed]).
      split; [by rewrite <- !app_assoc|]. left.
      change (builds (EvMkTransaction p (fresh (dom (heap w)))
                        (resolve_spec (payFlags p) raw)
                      :: str ++ [EvLog "Signed transaction:" signed]))
        with ((p, fresh (dom (heap w)), resolve_spec (payFlags p) raw)
              :: builds (str ++ [EvLog "Signed transaction:" signed])).
      by rewrite builds_app, Hbstr.
    + exists (EvMkTransaction p (fresh (dom (heap w))) (resolve_spec (payFlags p) raw)
              :: str).
      split; [by rewrite <- !app_assoc|]. left.
      change (builds (EvMkTransaction p (fresh (dom (heap w)))
                        (resolve_spec (payFlags p) raw) :: str))
        with ((p, fresh (dom (heap w)), resolve_spec (payFlags p) raw) :: builds str).
      by rewrite Hbstr.
  - unfold prepare. rewrite Hfits.
    destruct (forOf_mkTx_run deployer snapshot raw ps w Hsnap)
      as (tr1 & Htr1 & _ & _ & _ & _ & _ & Hok1 & _).
    destruct (forOf_mkTx_stops deployer snapshot raw ps w Hsnap) as (tr1' & Htr1' & Hstop).
    assert (tr1' = tr1) as -> by (apply (app_inv_head (trace w)); congruence).
    unfold bind, callAssignGroupID, emit, liftR, ret.
    destruct (forOf (mkTx deployer snapshot) ps w) as [w1 [built|e1]]; simpl in *.
    2: { exists tr1. split; [done|]. right.
         destruct (Hstop e1 eq_refl) as (i & b & Hb & Hlen & He). by exists i, b, e1. }
    destruct (Hok1 built eq_refl) as [Hps _].
    destruct (assignGroupID built) as [grouped|e2]; simpl.
    2: { exists (tr1 ++ [EvAssignGroupID built]).
         split; [by rewrite Htr1, <- app_assoc|]. left.
         by rewrite builds_app, app_nil_r. }
    set (w2 := mkWorld (heap w1) (trace w1 ++ [EvAssignGroupID built])).
    destruct (mapIndexed_sign_run ps grouped 0%nat w2) as (tr3 & Htr3 & _ & Hs3 & _).
    destruct (signing_preparing tr3 Hs3) as (_ & Hb3 & _).
    exists (tr1 ++ EvAssignGroupID built :: tr3).
    assert (Hbuilds : builds (tr1 ++ EvAssignGroupID built :: tr3) = builds tr1).
    { rewrite builds_app.
      change (builds (EvAssignGroupID built :: tr3)) with (builds tr3).
      by rewrite Hb3, app_nil_r. }
    rewrite Hbuilds.
    destruct (mapIndexed (signAt ps) 0%nat grouped w2) as [w3 [signed|e3]]; simpl in *.
    + split; [by rewrite Htr3, Htr1, <- !app_assoc|]. by left.
    + split; [by rewrite Htr3, Htr1, <- !app_assoc|]. by left.
Qed.

(** A call that gets past the stale check and the size check builds every
    ExecParams, unless the builder rejects one; then the call fails with the
    builder's error. *)
Lemma executeTransaction_builds_complete (deployer : AlgobDeployer)
    (execParams : ExecParamsArg) (w : World) (raw : SuggestedParams) :
  getTransactionParams (algodClient deployer) (trace w) = Ok raw ->
  (firstRound raw =? 0) = false ->
  tooLarge execParams = false ->
  exists tr : list Event,
    trace (executeTransaction deployer execParams w).1 = trace w ++ tr
    /\ (map (fun b => b.1.1) (builds tr) = params_of execParams
        \/ exists i b e,
             builds tr !! i = Some b
             /\ length (builds tr) = S i
             /\ (mkTransaction b.1.1 b.2).2 = Throw e
             /\ (executeTransaction deployer execParams w).2 = Throw e).
Proof.
  intros Hnode Hlive Hfits.
  pose proof (executeTransaction_phases deployer execParams w) as Hrun.
  rewrite Hnode in Hrun. cbv zeta in Hrun. rewrite Hlive in Hrun.
  set (w2 := mkWorld (<[fresh (dom (heap w)) := raw]> (heap w))
               (trace w ++ [EvGetTransactionParams])) in *.
  destruct (prepare_builds_complete deployer (fresh (dom (heap w))) raw execParams w2)
    as (prep & Htr & Hall); [apply lookup_insert_eq | done |].
  destruct (prepare deployer (fresh (dom (heap w))) execParams w2) as [w3 [rawTxns|e]];
    simpl in *.
  - destruct Hall as [Hall | (i & b & e & _ & _ & _ & Habs)]; [|done].
    destruct (submit_run deployer rawTxns w3) as (rest & Htail & _ & Hres).
    rewrite <- Hrun in Htail, Hres.
    exists (EvGetTransactionParams :: prep ++ EvSendRawTransaction rawTxns :: rest).
    split; [by rewrite Htail, Htr, <- !app_assoc|]. left.
    change (builds (EvGetTransactionParams :: prep ++ EvSendRawTransaction rawTxns :: rest))
      with (builds (prep ++ EvSendRawTransaction rawTxns :: rest)).
    rewrite builds_app.
    change (builds (EvSendRawTransaction rawTxns :: rest)) with (builds rest).
    assert (Hrest : builds rest = []).
    { destruct ((executeTransaction deployer execParams w).2) as [info|e].
      - by destruct Hres as (txId & -> & _).
      - by destruct Hres as [[-> _] | (txId & -> & _)]. }
    by rewrite Hrest, app_nil_r.
  - rewrite Hrun. exists (EvGetTransactionParams :: prep).
    split; [simpl; by rewrite Htr, <- app_assoc|].
    change (builds (EvGetTransactionParams :: prep)) with (builds prep).
    destruct Hall as [Hall | (i & b & e' & Hb & Hlen & He & [= ->])]; [by left|].
    right. by exists i, b, e'.
Qed.

(** C8: every [executeTransaction] call asks the node for the suggested
    params exactly once. When the node answers, that answer stays unchanged
    in the snapshot object to the end of the call; every build is handed the
    merge of that one answer with the transaction's own [payFlags], in a copy
    that is a new object, different from the snapshot and from the copy of
    every other build; and, once past the stale check and the size check,
    the call builds every one of its transactions this way, in order, unless
    the builder rejects one, at which the building stops and the call fails
    with the builder's error. *)
Theorem executeTransaction_one_snapshot (deployer : AlgobDeployer)
    (execParams : ExecParamsArg) (w : World) :
  exists tr : list Event,
    trace (executeTransaction deployer execParams w).1 = trace w ++ tr
    /\ fetches tr = 1%nat
    /\ match getTransactionParams (algodClient deployer) (trace w) with
       | Throw _ => builds tr = []
       | Ok raw =>
           heap (executeTransaction deployer execParams w).1
             !! fresh (dom (heap w)) = Some raw
           /\ Forall (own_copy w raw) (builds tr)
           /\ NoDup (map (fun b => b.1.2) (builds tr))
           /\ if (firstRound raw =? 0) || tooLarge execParams
              then builds tr = []
              else
                map (fun b => b.1.1) (builds tr) = params_of execParams
                \/ exists i b e,
                     builds tr !! i = Some b
                     /\ length (builds tr) = S i
                     /\ (mkTransaction b.1.1 b.2).2 = Throw e
                     /\ (executeTransaction deployer execParams w).2 = Throw e
       end.
Proof.
  destruct (executeTransaction_snapshot_kept deployer execParams w)
    as (tr & Htr & Hfetch & Hkept).
  exists tr. split; [done|]. split; [done|].
  destruct (getTransactionParams (algodClient deployer) (trace w)) as [raw|e] eqn:Hnode;
    [|done].
  destruct Hkept as (Hsnap & Hown & Hnd).
  split; [done|]. split; [done|]. split; [done|].
  destruct (firstRound raw =? 0) eqn:Hlive; simpl.
  { pose proof (executeTransaction_phases deployer execParams w) as Hrun.
    rewrite Hnode in Hrun. cbv zeta in Hrun. rewrite Hlive in Hrun.
    rewrite Hrun in Htr. simpl in Htr. by apply app_inv_head in Htr as <-. }
  destruct (tooLarge execParams) eqn:Hfits.
  { pose proof (executeTransaction_phases deployer execParams w) as Hrun.
    rewrite Hnode in Hrun. cbv zeta in Hrun. rewrite Hlive in Hrun.
    destruct execParams as [p|ps]; [done|]. simpl in Hfits.
    unfold prepare in Hrun. rewrite Hfits in Hrun. unfold throw in Hrun.
    cbn [fst snd] in Hrun. rewrite Hrun in Htr. simpl in Htr.
    by apply app_inv_head in Htr as <-. }
  destruct (executeTransaction_builds_complete deployer execParams w raw Hnode Hlive Hfits)
    as (tr' & Htr' & Hall).
  assert (tr' = tr) as -> by (apply (app_inv_head (trace w)); congruence).
  exact Hall.
Qed.
End BuildsComplete.

(** ** A single ExecParams and a list of one *)

Section SingleOrListOfOne.
Context `{sdk : AlgoSdk} {rt : Runtime} {op : AlgoOperator}.


End SingleOrListOfOne.

(** ** The two statements above on concrete inputs *)

Module GroupExamples.
Import Fixtures.

(** A confirmed group of two: both ExecParams were built, in order. *)
Lemma executeTransaction_one_snapshot_witness :
  exists tr : list (@Event toySdk),
    trace (executeTransaction (sdk:=toySdk) (rt:=toyRuntime) (op:=toyOperator)
             (deployerOn liveParams) (Array [payment; contractPayment]) emptyWorld).1
    = trace emptyWorld ++ tr
    /\ fetches tr = 1%nat
    /\ map (fun b => b.1.1) (builds tr) = [payment; contractPayment].
Proof.
  destruct (executeTransaction_one_snapshot (sdk:=toySdk) (rt:=toyRuntime)
              (op:=toyOperator) (deployerOn liveParams)
              (Array [payment; contractPayment]) emptyWorld)
    as (tr & Htr & Hfetch & Hcase).
  exists tr. split; [exact Htr|]. split; [exact Hfetch|].
  simpl in Hcase.
  destruct Hcase as (_ & _ & _ & [Hall | (i & b & e & _ & _ & _ & Habs)]).
  - exact Hall.
  - vm_compute in Habs. discriminate Habs.
Defined.

End GroupExamples.
